(** * deepracer/tracks/track_utils.py: Track and GeometryUtils

  A shallow embedding of the [Track] constructor and of the static
  methods of [GeometryUtils], with the loader [TrackIO] and the
  plotter [TrackPlotter] around them, followed by the properties the
  specification states about them and by further properties of the
  code.

  The Python code is duck-typed over its numbers, so the embedding is
  written once over a [Scalar] interface (the numpy ufuncs the code
  reaches) and then read at two carriers:

  - [float], Rocq's primitive binary64 numbers: what numpy's float64
    computes, bit for bit, and executable. This carrier is the
    program; [log], [exp] and [atan2] are a parameter of it, known
    by the values that C99 fixes.
  - [xreal], the reals extended with the IEEE special values: the
    same operations without rounding, overflow or signed zeros. A
    statement on this carrier says what the formulas of the program
    give in exact arithmetic, and is named as such. *)

From Stdlib Require Import ZArith List Bool String.
From Stdlib Require Import Reals Lra Lia.
From Stdlib Require Import Uint63 Floats.
From Stdlib Require Import DecimalString.
Import ListNotations.

Set Implicit Arguments.
Set Warnings "-inexact-float".

(** ** Python calls: a value or an exception *)

Module Py.

Inductive exn : Type :=
| ZeroDivisionError
| ValueError
| AssertionError.

Inductive result (A : Type) : Type :=
| Return (a : A)
| Raise (e : exn).

Arguments Return {A} a.
Arguments Raise {A} e.

Definition bind {A B : Type} (m : result A) (k : A -> result B) : result B :=
  match m with
  | Return a => k a
  | Raise e => Raise e
  end.

Definition returns {A : Type} (m : result A) : Prop :=
  exists a, m = Return a.

Definition raises {A : Type} (m : result A) : Prop :=
  exists e, m = Raise e.

End Py.

Import Py.

Notation "x <- m ;; k" := (Py.bind m (fun x => k))
(at level 61, m at next level, right associativity).

(** ** numpy: the numbers of the program, and arrays of them

  The operations are named after the numpy ufuncs that the Python
  operators dispatch to once an operand is an [ndarray] or a
  [np.float64]. None of them raises: numpy reports a zero divisor
  with a warning and an IEEE special value. *)

Module np.

Class Scalar (T : Type) : Type := {
of_Z : Z -> T;                    (* an integer literal of the source *)
inf : T;                          (* float('inf') *)
add : T -> T -> T;                (* np.add *)
subtract : T -> T -> T;           (* np.subtract *)
multiply : T -> T -> T;           (* np.multiply *)
true_divide : T -> T -> T;        (* np.true_divide *)
negative : T -> T;                (* np.negative *)
sqrt : T -> T;                    (* np.sqrt *)
rint : T -> T;                    (* np.rint: nearest integer, ties to even *)
equal : T -> T -> bool;           (* == *)
less : T -> T -> bool             (* < *)
}.

(** What [np.linalg.det], [math.atan2] and [np.degrees] reach below
  numpy: the C library and two constants. *)

Class Libm (T : Type) : Type := {
fabs : T -> T;                    (* fabs *)
log : T -> T;                     (* log *)
exp : T -> T;                     (* exp *)
atan2 : T -> T -> T;              (* atan2(y, x) *)
sfmin : T;                        (* LAPACK's safe minimum, dlamch('S') *)
rad2deg : T                       (* 180.0 / pi *)
}.

(** numpy on the shapes the program uses. *)

Section Arrays.

Context {T : Type} `{Scalar T}.

(** A two-dimensional array is the list of its rows. *)
Definition ndarray : Type := list (list T).

(** [a[:, lo:hi]] *)
Definition columns (lo hi : nat) (a : ndarray) : ndarray :=
  map (fun row => firstn (hi - lo) (skipn lo row)) a.

(** [a * k] for a number [k] *)
Definition scale (a : ndarray) (k : T) : ndarray :=
  map (map (fun x => multiply x k)) a.

(** [np.vstack((a, b))] *)
Definition vstack (a b : ndarray) : ndarray := a ++ b.

(** [np.flipud(a)] *)
Definition flipud (a : ndarray) : ndarray := rev a.

(** Points and vectors of the plane, and homogeneous triples. *)
Definition vec2 : Type := T * T.
Definition vec3 : Type := T * T * T.

Definition add2 (a b : vec2) : vec2 :=
  (add (fst a) (fst b), add (snd a) (snd b)).

Definition subtract2 (a b : vec2) : vec2 :=
  (subtract (fst a) (fst b), subtract (snd a) (snd b)).

(** [v / n] for an array [v] and a numpy number [n] *)
Definition divide2 (v : vec2) (n : T) : vec2 :=
  (true_divide (fst v) n, true_divide (snd v) n).

Definition dot (a b : vec2) : T :=
  add (multiply (fst a) (fst b)) (multiply (snd a) (snd b)).

(** [np.linalg.norm(v)]: the square root of [v.dot(v)] *)
Definition linalg_norm (v : vec2) : T := sqrt (dot v v).

(** [np.cross(a, b)] for two vectors of dimension 3 *)
Definition cross (a b : vec3) : vec3 :=
  let '(a0, a1, a2) := a in
  let '(b0, b1, b2) := b in
  (subtract (multiply a1 b2) (multiply a2 b1),
   subtract (multiply a2 b0) (multiply a0 b2),
   subtract (multiply a0 b1) (multiply a1 b0)).

(** [np.cross(a, b)] for [a] of dimension 2 and [b] of dimension 3:
    numpy takes the missing component of [a] as zero and never
    multiplies by it. *)
Definition cross23 (a : vec2) (b : vec3) : vec3 :=
  let '(a0, a1) := a in
  let '(b0, b1, b2) := b in
  (multiply a1 b2,
   negative (multiply a0 b2),
   subtract (multiply a0 b1) (multiply a1 b0)).

(** [c[:2]] *)
Definition first_two (c : vec3) : vec2 := (fst (fst c), snd (fst c)).

(** [np.hstack((s, np.ones((4, 1))))], one row of it *)
Definition homogeneous (p : vec2) : vec3 := (fst p, snd p, of_Z 1).

(** [np.round(x, 3)]: scale by [10**3], [rint], scale back *)
Definition round (x : T) (decimals : Z) : T :=
  true_divide (rint (multiply x (of_Z (10 ^ decimals)))) (of_Z (10 ^ decimals)).

End Arrays.

(** [np.linalg.det] of the matrix with the rows [v1], [v2], and
  [np.degrees].

  numpy hands the matrix to LAPACK's [dgetrf] (LU factorisation with
  partial pivoting), takes the sign and the logarithm of the
  determinant from the pivots and the diagonal of [U], and returns
  [sign * exp(logdet)]; a zero pivot ([info > 0]) gives the sign [0]
  and the logarithm [-inf]. The factorisation is LAPACK's reference
  code for two columns: the pivot is the first entry of largest
  magnitude of the first column, the multiplier is the other entry
  times the reciprocal of the pivot (divided by it below the safe
  minimum), the update is a product and a subtraction. *)

Section Linalg.

Context {T : Type} `{Scalar T} `{Libm T}.

Definition greater_equal (x y : T) : bool := less y x || equal x y.

(** [dgetrf] on [[a, b], [c, d]]: whether the rows were exchanged and
    the diagonal of [U]; nothing when [info > 0]. *)
Definition getrf (a b c d : T) : option (bool * T * T) :=
  let swapped := less (fabs a) (fabs c) in
  let '(p, q, r, s) := if swapped then (c, d, a, b) else (a, b, c, d) in
  if equal p (of_Z 0) then None
  else
    let l := if greater_equal (fabs p) sfmin
             then multiply r (true_divide (of_Z 1) p)
             else true_divide r p in
    let u22 := subtract s (multiply l q) in
    if equal u22 (of_Z 0) then None else Some (swapped, p, u22).

(** One step of numpy's loop over the diagonal. *)
Definition slogdet_step (acc : T * T) (element : T) : T * T :=
  let '(acc_sign, acc_logdet) := acc in
  if less element (of_Z 0)
  then (negative acc_sign, add acc_logdet (log (negative element)))
  else (acc_sign, add acc_logdet (log element)).

Definition slogdet (a b c d : T) : T * T :=
  match getrf a b c d with
  | Some (swapped, u11, u22) =>
      let sign := if swapped then of_Z (-1) else of_Z 1 in
      slogdet_step (slogdet_step (sign, of_Z 0) u11) u22
  | None => (of_Z 0, negative inf)
  end.

Definition linalg_det (v1 v2 : vec2) : T :=
  let '(sign, logdet) := slogdet (fst v1) (snd v1) (fst v2) (snd v2) in
  multiply sign (exp logdet).

Definition degrees (x : T) : T := multiply x rad2deg.

End Linalg.
End np.

(** ** Shapely, as far as the constructor uses it

  Shapely is a library the program imports. [LineString] and
  [Polygon] are modelled from what its version 1.7 does with an array
  of coordinates: a [LineString] needs two rows and rows of two or
  three numbers; the ring of a [Polygon] needs three rows, is closed
  with a copy of its first point when its last point differs from it
  in x or y, and needs four points once closed. *)

Section Shapely.

Context {T : Type} `{np.Scalar T}.

Record LineString : Type := { coords : list (list T) }.

(** The coordinates of the exterior ring, as [exterior.coords] lists
    them. *)
Record Polygon : Type := { exterior : list (list T) }.

(** [shape[1]] of an array *)
Definition width (a : np.ndarray (T := T)) : nat :=
  match a with
  | [] => 0
  | row :: _ => List.length row
  end.

Definition two_or_three (n : nat) : bool := (n =? 2)%nat || (n =? 3)%nat.

(** [LineString(coordinates)] *)
Definition LineString_init (coordinates : np.ndarray (T := T)) : result LineString :=
  if (List.length coordinates <? 2)%nat then Raise ValueError
  else if negb (two_or_three (width coordinates)) then Raise AssertionError
  else Return {| coords := coordinates |}.

(** The x and the y of two points are equal ([==]). *)
Definition same_xy (p q : list T) : bool :=
  match p, q with
  | px :: py :: _, qx :: qy :: _ => np.equal px qx && np.equal py qy
  | _, _ => false
  end.

(** The ring, closed. *)
Definition closed_ring (shell : np.ndarray (T := T)) : np.ndarray :=
  match shell with
  | [] => []
  | first :: _ =>
      if same_xy first (last shell first) then shell else shell ++ [first]
  end.

(** [Polygon(shell)] *)
Definition Polygon_init (shell : np.ndarray (T := T)) : result Polygon :=
  if (List.length shell <? 3)%nat then Raise ValueError
  else if negb (two_or_three (width shell)) then Raise AssertionError
  else if (List.length (closed_ring shell) <? 4)%nat then Raise ValueError
  else Return {| exterior := closed_ring shell |}.

End Shapely.

Arguments LineString T : clear implicits.
Arguments Polygon T : clear implicits.

(** ** class Track *)

Section TrackModel.

Context {T : Type} `{np.Scalar T}.

(** One row of the waypoint array, as the docstring of [TrackIO]
    lays it out. *)
Record waypoint : Type := {
  center_x : T; center_y : T;
  inner_x : T; inner_y : T;
  outer_x : T; outer_y : T
}.

Definition waypoint_row (w : waypoint) : list T :=
  [center_x w; center_y w; inner_x w; inner_y w; outer_x w; outer_y w].

Definition waypoint_array (ws : list waypoint) : np.ndarray :=
  map waypoint_row ws.

(** The three points of a waypoint, in the loader's unit. *)
Definition center_point (r : waypoint) : list T := [center_x r; center_y r].
Definition inner_point (r : waypoint) : list T := [inner_x r; inner_y r].
Definition outer_point (r : waypoint) : list T := [outer_x r; outer_y r].

(** A point times 100, coordinate by coordinate. *)
Definition times_100 (p : list T) : list T :=
  map (fun x => np.multiply x (np.of_Z 100)) p.

Record Track : Type := {
  name : string;
  waypoints : np.ndarray (T := T);
  center_line : np.ndarray (T := T);
  inner_border : np.ndarray (T := T);
  outer_border : np.ndarray (T := T);
  road_poly : Polygon T
}.

(** [Track.__init__] *)
Definition Track_init (name : string) (waypoints : np.ndarray) : result Track :=
  let center_line := np.scale (np.columns 0 2 waypoints) (np.of_Z 100) in
  let inner_border := np.scale (np.columns 2 4 waypoints) (np.of_Z 100) in
  let outer_border := np.scale (np.columns 4 6 waypoints) (np.of_Z 100) in
  l_inner_border <- LineString_init (np.columns 2 4 waypoints) ;;
  l_outer_border <- LineString_init (np.columns 4 6 waypoints) ;;
  road_poly <- Polygon_init
                 (np.vstack (coords l_outer_border)
                            (np.flipud (coords l_inner_border))) ;;
  Return {| name := name;
            waypoints := waypoints;
            center_line := center_line;
            inner_border := inner_border;
            outer_border := outer_border;
            road_poly := road_poly |}.

(** What a Track holds besides its name and the array it was given. *)
Definition track_geometry (t : Track)
  : np.ndarray (T := T) * np.ndarray (T := T) * np.ndarray (T := T) * Polygon T :=
  (center_line t, inner_border t, outer_border t, road_poly t).

(** The point that closes the ring of the road: nothing when the
    outer and the inner point of the first waypoint are equal. *)
Definition closing_point (first : waypoint) : list (list T) :=
  if same_xy (outer_point first) (inner_point first) then []
  else [outer_point first].

End TrackModel.

Arguments waypoint T : clear implicits.
Arguments Track T : clear implicits.

(** ** Python numbers

  [get_a_and_b_for_line] applies Python's own [-], [/] and [*] to the
  coordinates it is given, so what it does at a zero divisor depends
  on what the coordinates are: Python's [int] and [float] raise
  [ZeroDivisionError], a [np.float64] (an element of an [ndarray],
  such as a row of [Track.center_line]) divides as numpy does. A
  binary operator with a numpy operand is numpy's. *)

Section PythonNumbers.

Context {T : Type} `{np.Scalar T}.

Inductive number : Type :=
| py_float (x : T)
| np_float64 (x : T).

Definition value (a : number) : T :=
  match a with py_float x | np_float64 x => x end.

Definition binop (f : T -> T -> T) (a b : number) : number :=
  match a, b with
  | py_float x, py_float y => py_float (f x y)
  | _, _ => np_float64 (f (value a) (value b))
  end.

Definition py_sub : number -> number -> number := binop np.subtract.
Definition py_mul : number -> number -> number := binop np.multiply.

Definition py_truediv (a b : number) : result number :=
  match a, b with
  | py_float x, py_float y =>
      if np.equal y (np.of_Z 0) then Raise ZeroDivisionError
      else Return (py_float (np.true_divide x y))
  | _, _ => Return (np_float64 (np.true_divide (value a) (value b)))
  end.

End PythonNumbers.

Arguments number T : clear implicits.

(** ** class GeometryUtils *)

Module GeometryUtils.
Section Methods.

Context {T : Type} `{np.Scalar T}.

Local Abbreviation vec2 := (np.vec2 (T := T)).

Definition vector (p1 p2 : vec2) : vec2 := np.subtract2 p1 p2.

Definition get_vector_length (v : vec2) : T := np.linalg_norm v.

Definition normalize_vector (v : vec2) : result vec2 :=
  Return (np.divide2 v (get_vector_length v)).

Definition perpendicular_vector (v : vec2) : vec2 :=
  np.first_two (np.cross23 v (np.of_Z 0, np.of_Z 0, np.of_Z (-1))).

Definition perpendicular_normalized_vector_to_straight_line (v : vec2)
  : result vec2 :=
  let p_v := perpendicular_vector v in
  normalize_vector p_v.

(** The triple [x, y, z] of line 164: the two lines through the
    homogeneous points, and their cross product. *)
Definition homogeneous_crossing (l1_p1 l1_p2 l2_p1 l2_p2 : vec2) : np.vec3 :=
  let l1 := np.cross (np.homogeneous l1_p1) (np.homogeneous l1_p2) in
  let l2 := np.cross (np.homogeneous l2_p1) (np.homogeneous l2_p2) in
  np.cross l1 l2.

Definition crossing_point_for_two_lines (l1_p1 l1_p2 l2_p1 l2_p2 : vec2)
  : result vec2 :=
  let '(x, y, z) := homogeneous_crossing l1_p1 l1_p2 l2_p1 l2_p2 in
  if np.equal z (np.of_Z 0) then Return (np.inf, np.inf)
  else Return (np.round (np.true_divide x z) 3,
               np.round (np.true_divide y z) 3).

Definition get_a_and_b_for_line (p1 p2 : number T * number T)
  : result (number T * number T) :=
  a1 <- py_truediv (py_sub (snd p1) (snd p2)) (py_sub (fst p1) (fst p2)) ;;
  let b1 := py_sub (snd p2) (py_mul a1 (fst p2)) in
  Return (a1, b1).

Definition get_a_point_on_a_line_closest_to_point (l1_p1 l1_p2 p : vec2)
  : result vec2 :=
  vector <- perpendicular_normalized_vector_to_straight_line
              (vector l1_p1 l1_p2) ;;
  let p2 := np.add2 p vector in
  crossing_point <- crossing_point_for_two_lines l1_p1 l1_p2 p p2 ;;
  Return crossing_point.

Context `{np.Libm T}.

Definition get_angle (v1 v2 : vec2) : T :=
  let angle := np.atan2 (np.linalg_det v1 v2) (np.dot v1 v2) in
  np.degrees angle.

Definition is_point_roughly_on_the_line (lp1 lp2 p : vec2) (tolerated_angle : T)
  : bool :=
  let a1 := get_angle (vector lp1 lp2) (vector lp1 p) in
  let a2 := get_angle (vector lp2 p) (vector lp2 p) in
  np.less a1 (np.of_Z 5) && np.less a2 (np.of_Z 5).

End Methods.
End GeometryUtils.

(** ** The binary64 carrier: numpy's float64 *)

Module Binary64.

Open Scope float_scope.

(** An integer literal, converted as numpy converts it. *)
Definition of_Z (z : Z) : float :=
  match z with
  | Z0 => 0
  | Zpos _ => PrimFloat.of_uint63 (Uint63.of_Z z)
  | Zneg _ => - PrimFloat.of_uint63 (Uint63.of_Z (- z))
  end.

(** [2**52]: from there on every binary64 number is an integer. *)
Definition two52 : float := 4503599627370496.

(** [rint]: below [2**52] in magnitude, adding and removing [2**52]
    rounds to the nearest integer with ties to even (the rounding of
    the addition itself); the sign, also of a zero, is the argument's.
    Larger numbers, the infinities and NaN are returned as they are. *)
Definition rint (x : float) : float :=
  if PrimFloat.abs x <? two52 then
    let r := (PrimFloat.abs x + two52) - two52 in
    if ((x <? 0) || (1 / x <? 0))%bool then - r else r
  else x.

#[global] Instance scalar : np.Scalar float := {|
  np.of_Z := of_Z;
  np.inf := infinity;
  np.add := PrimFloat.add;
  np.subtract := PrimFloat.sub;
  np.multiply := PrimFloat.mul;
  np.true_divide := PrimFloat.div;
  np.negative := PrimFloat.opp;
  np.sqrt := PrimFloat.sqrt;
  np.rint := rint;
  np.equal := PrimFloat.eqb;
  np.less := PrimFloat.ltb
|}.

(** The C library. [log], [exp] and [atan2] are not operations of
    binary64: their results are the library's, to its own accuracy.
    They are a parameter of the carrier; [annex_F] lists the values
    that C99 (Annex F.9) fixes and that the statements below use. *)
Record libm : Type := {
  libm_log : float -> float;
  libm_exp : float -> float;
  libm_atan2 : float -> float -> float
}.

(** [pi], as binary64 has it. *)
Definition pi : float := 0x1.921fb54442d18p+1.

Definition annex_F (m : libm) : Prop :=
  libm_exp m neg_infinity = 0
  /\ libm_exp m nan = nan
  /\ libm_log m infinity = infinity
  /\ libm_log m nan = nan
  /\ (forall x : float, libm_atan2 m nan x = nan)
  /\ (forall x : float, PrimFloat.compare x 0 = FGt -> libm_atan2 m 0 x = 0)
  /\ (forall x : float, PrimFloat.compare x 0 = FLt -> libm_atan2 m 0 x = pi).

(** binary64 with a C library [m]. The safe minimum of binary64 is
    [2**-1022]; [rad2deg] is the constant [180.0 / pi] of numpy. *)
Definition C_library (m : libm) : np.Libm float := {|
  np.fabs := PrimFloat.abs;
  np.log := libm_log m;
  np.exp := libm_exp m;
  np.atan2 := libm_atan2 m;
  np.sfmin := 0x1p-1022;
  np.rad2deg := 0x1.ca5dc1a63c1f8p+5
|}.

(** A library that knows the values of [annex_F] and nothing else. *)
Definition special_values : libm := {|
  libm_log := fun x =>
    match PrimFloat.classify x with PInf => infinity | _ => nan end;
  libm_exp := fun x =>
    match PrimFloat.classify x with NInf => 0 | _ => nan end;
  libm_atan2 := fun y x =>
    match PrimFloat.classify y, PrimFloat.compare x 0 with
    | PZero, FGt => 0
    | PZero, FLt => pi
    | _, _ => nan
    end
|}.

End Binary64.

(** ** The exact carrier: reals with the IEEE special values

    A finite number is a real and is computed with exactly; the
    infinities and NaN combine as IEEE 754 says. There is one zero, and
    it divides as [+0.0] does. *)

Module Exact.

Open Scope R_scope.

Inductive xreal : Type :=
| Fin (r : R)
| PInf
| NInf
| NaN.

Definition Reqb (a b : R) : bool := if Req_dec_T a b then true else false.
Definition Rltb (a b : R) : bool := if Rlt_dec a b then true else false.

(** The infinity of the sign of [r], NaN at zero: [r * inf], [r / 0]. *)
Definition signed_inf (r : R) : xreal :=
  if Reqb r 0 then NaN else if Rltb 0 r then PInf else NInf.

Definition xneg (a : xreal) : xreal :=
  match a with
  | Fin r => Fin (- r)
  | PInf => NInf
  | NInf => PInf
  | NaN => NaN
  end.

Definition xadd (a b : xreal) : xreal :=
  match a, b with
  | NaN, _ | _, NaN => NaN
  | Fin r, Fin s => Fin (r + s)
  | PInf, NInf | NInf, PInf => NaN
  | PInf, _ | _, PInf => PInf
  | NInf, _ | _, NInf => NInf
  end.

Definition xsub (a b : xreal) : xreal := xadd a (xneg b).

Definition xmul (a b : xreal) : xreal :=
  match a, b with
  | NaN, _ | _, NaN => NaN
  | Fin r, Fin s => Fin (r * s)
  | Fin r, PInf | PInf, Fin r => signed_inf r
  | Fin r, NInf | NInf, Fin r => signed_inf (- r)
  | PInf, PInf | NInf, NInf => PInf
  | PInf, NInf | NInf, PInf => NInf
  end.

Definition xdiv (a b : xreal) : xreal :=
  match a, b with
  | NaN, _ | _, NaN => NaN
  | Fin r, Fin s => if Reqb s 0 then signed_inf r else Fin (r / s)
  | Fin _, (PInf | NInf) => Fin 0
  | PInf, Fin s => if Rltb s 0 then NInf else PInf
  | NInf, Fin s => if Rltb s 0 then PInf else NInf
  | (PInf | NInf), (PInf | NInf) => NaN
  end.

Definition xsqrt (a : xreal) : xreal :=
  match a with
  | Fin r => if Rltb r 0 then NaN else Fin (R_sqrt.sqrt r)
  | PInf => PInf
  | NInf | NaN => NaN
  end.

(** The nearest integer, ties to the even one. [Int_part] is the floor. *)
Definition rint_R (r : R) : Z :=
  let f := Int_part r in
  let d := r - IZR f in
  if Rltb d (1 / 2) then f
  else if Rltb (1 / 2) d then (f + 1)%Z
  else if Z.even f then f else (f + 1)%Z.

Definition xrint (a : xreal) : xreal :=
  match a with
  | Fin r => Fin (IZR (rint_R r))
  | _ => a
  end.

Definition xeqb (a b : xreal) : bool :=
  match a, b with
  | Fin r, Fin s => Reqb r s
  | PInf, PInf | NInf, NInf => true
  | _, _ => false
  end.

Definition xltb (a b : xreal) : bool :=
  match a, b with
  | NaN, _ | _, NaN => false
  | Fin r, Fin s => Rltb r s
  | _, NInf | PInf, _ => false
  | NInf, _ | _, PInf => true
  end.

#[global] Instance scalar : np.Scalar xreal := {|
  np.of_Z := fun z => Fin (IZR z);
  np.inf := PInf;
  np.add := xadd;
  np.subtract := xsub;
  np.multiply := xmul;
  np.true_divide := xdiv;
  np.negative := xneg;
  np.sqrt := xsqrt;
  np.rint := xrint;
  np.equal := xeqb;
  np.less := xltb
|}.

(** [math.atan2] on the reals: the angle of the point [(x, y)], in
    (-pi, pi], and [0] at the origin. *)
Definition atan2_R (y x : R) : R :=
  if Rltb 0 x then atan (y / x)
  else if Rltb x 0 then
    if Rltb y 0 then atan (y / x) - PI else atan (y / x) + PI
  else if Rltb 0 y then PI / 2
  else if Rltb y 0 then - (PI / 2)
  else 0.

(** ... and at the special values, as C99 (Annex F.9.1.4) lists them. *)
Definition xatan2 (y x : xreal) : xreal :=
  match y, x with
  | NaN, _ | _, NaN => NaN
  | Fin r, Fin s => Fin (atan2_R r s)
  | Fin _, PInf => Fin 0
  | Fin r, NInf => if Rltb r 0 then Fin (- PI) else Fin PI
  | PInf, Fin _ => Fin (PI / 2)
  | NInf, Fin _ => Fin (- (PI / 2))
  | PInf, PInf => Fin (PI / 4)
  | NInf, PInf => Fin (- (PI / 4))
  | PInf, NInf => Fin (3 * PI / 4)
  | NInf, NInf => Fin (- (3 * PI / 4))
  end.

Definition xabs (a : xreal) : xreal :=
  match a with
  | Fin r => Fin (Rabs r)
  | PInf | NInf => PInf
  | NaN => NaN
  end.

Definition xlog (a : xreal) : xreal :=
  match a with
  | Fin r => if Rltb 0 r then Fin (ln r) else if Reqb r 0 then NInf else NaN
  | PInf => PInf
  | NInf | NaN => NaN
  end.

Definition xexp (a : xreal) : xreal :=
  match a with
  | Fin r => Fin (Rtrigo_def.exp r)
  | PInf => PInf
  | NInf => Fin 0
  | NaN => NaN
  end.

(** The safe minimum of binary64, as a real number. *)
Definition sfmin_R : R := powerRZ 2 (-1022).

#[global] Instance libm : np.Libm xreal := {|
  np.fabs := xabs;
  np.log := xlog;
  np.exp := xexp;
  np.atan2 := xatan2;
  np.sfmin := Fin sfmin_R;
  np.rad2deg := Fin (180 / PI)
|}.

(** A point with real coordinates. *)
Definition point (x y : R) : np.vec2 (T := xreal) := (Fin x, Fin y).

End Exact.

(** ** Python strings, as the loader uses them *)

Module str.

(** [s.endswith(suffix)] *)
Definition endswith (s suffix : string) : bool :=
  (String.length suffix <=? String.length s)%nat
  && String.eqb
       (substring (String.length s - String.length suffix) (String.length suffix) s)
       suffix.

(** [s[:-n]] for a positive [n] *)
Definition drop_last (n : nat) (s : string) : string :=
  substring 0 (String.length s - n) s.

(** [str(n)], as ["%s" % n] prints a count *)
Definition of_nat (n : nat) : string :=
  NilEmpty.string_of_uint (Nat.to_uint n).

End str.

(** ** class TrackIO

  The files are a parameter: [np_load path] is the array that
  [np.load] returns for [path], or nothing when [np.load] raises. The
  line that [load_track] prints is returned beside what [Track(...)]
  then returns or raises. *)

Module TrackIO.
Section Loader.

Context {T : Type} `{np.Scalar T}.

Variable np_load : string -> option (np.ndarray (T := T)).

Record TrackIO : Type := { base_path : string }.

(** [TrackIO.__init__], and its default argument *)
Definition init (base_path : string) : TrackIO := {| base_path := base_path |}.
Definition default_base_path : string := "./tracks".

Definition get_track_waypoints (self : TrackIO) (track_name : string)
  : option np.ndarray :=
  let track_name :=
    if str.endswith track_name ".npy" then str.drop_last 4 track_name
    else track_name in
  np_load (base_path self ++ "/" ++ track_name ++ ".npy")%string.

Definition load_track (self : TrackIO) (track_name : string)
  : option (string * result (Track T)) :=
  let track_name :=
    if str.endswith track_name ".npy" then str.drop_last 4 track_name
    else track_name in
  match get_track_waypoints self track_name with
  | None => None
  | Some waypoints =>
      Some (("Loaded " ++ str.of_nat (List.length waypoints) ++ " waypoints")%string,
            Track_init track_name waypoints)
  end.

End Loader.
End TrackIO.

(** ** class TrackPlotter

  matplotlib is the list of the calls made to it. A computation takes
  the calls made so far and gives the calls made after it, with its
  value, or nothing when an index was out of range ([IndexError]). *)

Module TrackPlotter.
Section Plot.

Context {T : Type}.

Inductive call : Type :=
| Scatter (x y : T) (c : string)
| Show.

Definition plt (A : Type) : Type := list call -> list call * option A.

Definition ret {A : Type} (a : A) : plt A := fun calls => (calls, Some a).

Definition bind {A B : Type} (m : plt A) (k : A -> plt B) : plt B :=
  fun calls =>
    match m calls with
    | (calls', Some a) => k a calls'
    | (calls', None) => (calls', None)
    end.

Local Notation "x <~ m ;; k" := (bind m (fun x => k))
  (at level 61, m at next level, right associativity).

(** [point[i]] *)
Definition getitem (point : list T) (i : nat) : plt T :=
  fun calls => (calls, nth_error point i).

(** [plt.scatter(x, y, c=c)] *)
Definition plt_scatter (x y : T) (c : string) : plt unit :=
  fun calls => (calls ++ [Scatter x y c], Some tt).

(** [plt.show()] *)
Definition plt_show : plt unit :=
  fun calls => (calls ++ [Show], Some tt).

(** The body of the loop. *)
Definition plot_point (point : list T) : plt unit :=
  x <~ getitem point 0 ;; y <~ getitem point 1 ;;
  _ <~ plt_scatter x y "blue" ;;
  x <~ getitem point 2 ;; y <~ getitem point 3 ;;
  _ <~ plt_scatter x y "black" ;;
  x <~ getitem point 4 ;; y <~ getitem point 5 ;;
  plt_scatter x y "cyan".

(** [for point in trackpoints: body] *)
Fixpoint for_each (trackpoints : list (list T)) (body : list T -> plt unit)
  : plt unit :=
  match trackpoints with
  | [] => ret tt
  | point :: rest => _ <~ body point ;; for_each rest body
  end.

Definition plot_trackpoints (trackpoints : list (list T)) (show : bool)
  : plt unit :=
  _ <~ for_each trackpoints plot_point ;;
  if show then plt_show else ret tt.

(** The three markers of a row of six numbers. *)
Definition markers (point : list T) : list call :=
  match point with
  | cx :: cy :: ix :: iy :: ox :: oy :: _ =>
      [Scatter cx cy "blue"; Scatter ix iy "black"; Scatter ox oy "cyan"]
  | _ => []
  end.

Definition is_show (c : call) : bool :=
  match c with Show => true | Scatter _ _ _ => false end.

End Plot.
End TrackPlotter.

(** ** Vocabulary of the statements *)

Module Geometry.

Import Exact.
Open Scope R_scope.

(** The point [(x, y)] turned by the angle [theta], counter-clockwise
    for a positive angle. *)
Definition rotate (theta x y : R) : np.vec2 (T := xreal) :=
  point (x * cos theta - y * sin theta) (x * sin theta + y * cos theta).

(** [(X, Y)] lies on the infinite line through [(x1, y1)] and [(x2, y2)]. *)
Definition on_line (x1 y1 x2 y2 X Y : R) : Prop :=
  (X - x1) * (y2 - y1) = (Y - y1) * (x2 - x1).

Definition is_finite (a : xreal) : bool :=
  match a with Fin _ => true | _ => false end.

(** What a coordinate is at run time. *)
Inductive kind : Type := python | numpy.

Definition tagged (k : kind) (r : R) : number xreal :=
  match k with
  | python => py_float (Fin r)
  | numpy => np_float64 (Fin r)
  end.

(** The homogeneous line through two points, [a * X + b * Y + c = 0],
    and the homogeneous meeting point of two such lines. *)
Definition line_through (x1 y1 x2 y2 : R) : R * R * R :=
  (y1 - y2, x2 - x1, x1 * y2 - y1 * x2).

Definition meet (l1 l2 : R * R * R) : R * R * R :=
  let '(a1, b1, c1) := l1 in
  let '(a2, b2, c2) := l2 in
  (b1 * c2 - c1 * b2, c1 * a2 - a1 * c2, a1 * b2 - b1 * a2).

Definition meet_x (x1 y1 x2 y2 x3 y3 x4 y4 : R) : R :=
  fst (fst (meet (line_through x1 y1 x2 y2) (line_through x3 y3 x4 y4))).
Definition meet_y (x1 y1 x2 y2 x3 y3 x4 y4 : R) : R :=
  snd (fst (meet (line_through x1 y1 x2 y2) (line_through x3 y3 x4 y4))).
Definition meet_z (x1 y1 x2 y2 x3 y3 x4 y4 : R) : R :=
  snd (meet (line_through x1 y1 x2 y2) (line_through x3 y3 x4 y4)).

(** [v'] is [v] rounded to 3 decimals: a multiple of [1/1000] nearest
    to [v]. *)
Definition rounded_3 (v v' : R) : Prop :=
  exists k : Z, v' = IZR k / 1000 /\ Rabs (IZR k - v * 1000) <= 1 / 2.

End Geometry.

(** * Properties *)

(** ** Track *)

Section TrackProperties.

Context {T : Type} `{np.Scalar T}.

Lemma columns_0_2 (w : list (waypoint T)) :
  np.columns 0 2 (waypoint_array w) = map center_point w.
Proof.
  unfold np.columns, waypoint_array. rewrite map_map.
  apply map_ext. intros r. reflexivity.
Qed.

Lemma columns_2_4 (w : list (waypoint T)) :
  np.columns 2 4 (waypoint_array w) = map inner_point w.
Proof.
  unfold np.columns, waypoint_array. rewrite map_map.
  apply map_ext. intros r. reflexivity.
Qed.

Lemma columns_4_6 (w : list (waypoint T)) :
  np.columns 4 6 (waypoint_array w) = map outer_point w.
Proof.
  unfold np.columns, waypoint_array. rewrite map_map.
  apply map_ext. intros r. reflexivity.
Qed.

Lemma scale_points (f : waypoint T -> list T) (w : list (waypoint T)) :
  np.scale (map f w) (np.of_Z 100) = map (fun r => times_100 (f r)) w.
Proof.
  unfold np.scale. rewrite map_map. reflexivity.
Qed.

(** The ring of the road, closed: the last point of the shell is the
    inner point of the first waypoint. *)
Lemma closed_ring_of_the_road (w0 : waypoint T) (w : list (waypoint T)) :
  closed_ring (map outer_point (w0 :: w) ++ rev (map inner_point (w0 :: w)))
  = map outer_point (w0 :: w) ++ rev (map inner_point (w0 :: w)) ++ closing_point w0.
Proof.
  unfold closed_ring, closing_point. cbn [map rev app].
  assert (L : last (outer_point w0
                    :: map outer_point w ++ rev (map inner_point w) ++ [inner_point w0])
                   (outer_point w0) = inner_point w0).
  { change (outer_point w0
            :: map outer_point w ++ rev (map inner_point w) ++ [inner_point w0])
      with ((outer_point w0 :: map outer_point w)
            ++ rev (map inner_point w) ++ [inner_point w0]).
    rewrite app_assoc. apply last_last. }
  rewrite L.
  destruct (same_xy (outer_point w0) (inner_point w0)).
  - rewrite app_nil_r. reflexivity.
  - cbn [app]. rewrite <- !app_assoc. reflexivity.
Qed.

Lemma closing_point_length (w0 : waypoint T) :
  List.length (closing_point w0)
  = if same_xy (outer_point w0) (inner_point w0) then 0 else 1.
Proof. unfold closing_point. destruct (same_xy _ _); reflexivity. Qed.

(** With two waypoints or more the constructor returns, and this is
    the Track it returns. *)
Lemma Track_init_waypoints (name : string) (w0 w1 : waypoint T) (ws : list (waypoint T)) :
  let w := w0 :: w1 :: ws in
  Track_init name (waypoint_array w)
  = Return {| name := name;
              waypoints := waypoint_array w;
              center_line := map (fun r => times_100 (center_point r)) w;
              inner_border := map (fun r => times_100 (inner_point r)) w;
              outer_border := map (fun r => times_100 (outer_point r)) w;
              road_poly :=
                {| exterior := map outer_point w ++ rev (map inner_point w)
                               ++ closing_point w0 |} |}.
Proof.
  intros w. unfold Track_init.
  rewrite columns_0_2, columns_2_4, columns_4_6, !scale_points.
  assert (LI : LineString_init (map inner_point w) = Return {| coords := map inner_point w |})
    by reflexivity.
  assert (LO : LineString_init (map outer_point w) = Return {| coords := map outer_point w |})
    by reflexivity.
  rewrite LI. cbn [Py.bind]. rewrite LO. cbn [Py.bind coords].
  unfold np.vstack, np.flipud, Polygon_init.
  subst w. rewrite closed_ring_of_the_road.
  assert (L3 : (List.length (map outer_point (w0 :: w1 :: ws)
                             ++ rev (map inner_point (w0 :: w1 :: ws))) <? 3)%nat = false).
  { apply Nat.ltb_ge. rewrite length_app, length_rev, !length_map. cbn. lia. }
  assert (L4 : (List.length (map outer_point (w0 :: w1 :: ws)
                             ++ rev (map inner_point (w0 :: w1 :: ws))
                             ++ closing_point w0) <? 4)%nat = false).
  { apply Nat.ltb_ge. rewrite !length_app, length_rev, !length_map. cbn. lia. }
  rewrite L3, L4. reflexivity.
Qed.

(** With fewer than two waypoints [LineString] refuses the inner
    border. *)
Lemma Track_init_short (name : string) (w : list (waypoint T)) :
  List.length w < 2 -> Track_init name (waypoint_array w) = Raise ValueError.
Proof.
  intros L. destruct w as [|w0 [|w1 ws]]; [reflexivity | reflexivity | cbn in L; lia].
Qed.

(** C1, as the code has it: a Track is constructed when the waypoint
    sequence [w] has two records or more; with fewer the constructor
    raises [ValueError]. For every name and [w], a Track constructed
    from them has [center_line], [inner_border] and [outer_border]
    equal to the sequences of the waypoints' centre, inner and outer
    points, each coordinate multiplied by 100, in waypoint order, and
    all three have the length of [w]. *)
Theorem track_lines_are_waypoints_times_100 :
  forall (name : string) (w : list (waypoint T)),
    (forall t : Track T,
        Track_init name (waypoint_array w) = Return t ->
        center_line t =
          map (fun r => [np.multiply (center_x r) (np.of_Z 100);
                         np.multiply (center_y r) (np.of_Z 100)]) w
        /\ inner_border t =
          map (fun r => [np.multiply (inner_x r) (np.of_Z 100);
                         np.multiply (inner_y r) (np.of_Z 100)]) w
        /\ outer_border t =
          map (fun r => [np.multiply (outer_x r) (np.of_Z 100);
                         np.multiply (outer_y r) (np.of_Z 100)]) w
        /\ List.length (center_line t) = List.length w
        /\ List.length (inner_border t) = List.length w
        /\ List.length (outer_border t) = List.length w)
    /\ (2 <= List.length w -> Py.returns (Track_init name (waypoint_array w)))
    /\ (List.length w < 2 -> Track_init name (waypoint_array w) = Raise ValueError).
Proof.
  intros name w. split; [|split].
  - intros t E. destruct w as [|w0 [|w1 ws]]; try discriminate E.
    rewrite Track_init_waypoints in E. injection E as E. subst t.
    cbn [center_line inner_border outer_border].
    repeat split; try reflexivity; cbn [List.length]; rewrite length_map; reflexivity.
  - intros L. destruct w as [|w0 [|w1 ws]]; cbn in L; try lia.
    eexists. apply Track_init_waypoints.
  - apply Track_init_short.
Qed.

(** C6, as the code has it: for every waypoint sequence of two
    records or more the exterior ring of [road_poly] is the outer
    points of the waypoints in their order, followed by the inner
    points in reversed order, followed by a copy of the first outer
    point unless that point equals the first inner point; the points
    are those of the waypoint array, not multiplied by 100 as the
    borders are; the ring has [2 * n + 1] points, [2 * n] when the
    first outer and inner points are equal. With fewer than two
    records the constructor raises [ValueError]. *)
Theorem road_poly_ring :
  (forall (name : string) (w0 w1 : waypoint T) (ws : list (waypoint T)),
      let w := w0 :: w1 :: ws in
      exists t : Track T,
        Track_init name (waypoint_array w) = Return t
        /\ exterior (road_poly t)
           = map outer_point w ++ rev (map inner_point w) ++ closing_point w0
        /\ List.length (exterior (road_poly t))
           = 2 * List.length w
             + (if same_xy (outer_point w0) (inner_point w0) then 0 else 1)
        /\ outer_border t = np.scale (map outer_point w) (np.of_Z 100)
        /\ inner_border t = np.scale (map inner_point w) (np.of_Z 100))
  /\ (forall (name : string) (w : list (waypoint T)),
         List.length w < 2 -> Track_init name (waypoint_array w) = Raise ValueError).
Proof.
  split; [|apply Track_init_short].
  intros name w0 w1 ws w. eexists. split; [apply Track_init_waypoints|].
  cbn [road_poly exterior outer_border inner_border]. fold w.
  split; [reflexivity|]. split.
  - rewrite !length_app, length_rev, !length_map, closing_point_length. lia.
  - rewrite !scale_points. split; reflexivity.
Qed.

Lemma columns_of_first_six (lo hi : nat) (a : np.ndarray (T := T)) :
  hi <= 6 -> np.columns lo hi (np.columns 0 6 a) = np.columns lo hi a.
Proof.
  intros L. unfold np.columns. rewrite map_map. apply map_ext. intros row.
  cbn [skipn]. rewrite skipn_firstn_comm, firstn_firstn.
  f_equal. lia.
Qed.

(** X6: the constructor reads the first six columns of the array
    only: on an array and on its columns [0:6] it raises the same
    exception or returns Tracks with the same three lines and the same
    road polygon. *)
Theorem track_reads_six_columns :
  forall (name : string) (a : np.ndarray (T := T)),
    (t <- Track_init name (np.columns 0 6 a) ;; Return (track_geometry t))
    = (t <- Track_init name a ;; Return (track_geometry t)).
Proof.
  intros name a. unfold Track_init.
  rewrite !columns_of_first_six by lia.
  destruct (LineString_init (np.columns 2 4 a)) as [li|e]; [|reflexivity].
  cbn [Py.bind].
  destruct (LineString_init (np.columns 4 6 a)) as [lo|e]; [|reflexivity].
  cbn [Py.bind].
  destruct (Polygon_init _) as [poly|e]; reflexivity.
Qed.

End TrackProperties.

(** C1 for the two waypoints of the specification's scenario, in
    metres, on binary64: the three lines in centimetres. *)
Lemma track_of_two_waypoints :
  exists t : Track float,
    Track_init "straight" [[0; 0; 0; 1; 0; -1]; [10; 0; 10; 1; 10; -1]]%float = Return t
    /\ center_line t = [[0; 0]; [1000; 0]]%float
    /\ inner_border t = [[0; 100]; [1000; 100]]%float
    /\ outer_border t = [[0; -100]; [1000; -100]]%float.
Proof.
  destruct (proj1 (proj2 (@track_lines_are_waypoints_times_100 float _ "straight"
              [ {| center_x := 0; center_y := 0; inner_x := 0; inner_y := 1;
                   outer_x := 0; outer_y := -1 |};
                {| center_x := 10; center_y := 0; inner_x := 10; inner_y := 1;
                   outer_x := 10; outer_y := -1 |} ]%float))
             (le_n 2)) as [t E].
  exists t. split; [exact E|].
  vm_compute in E. injection E as E. subst t. vm_compute. repeat split.
Defined.

(** C1 as stated fails for a sequence of one waypoint and for the
    empty sequence: no Track is constructed, Shapely's [LineString]
    raises [ValueError]. *)
Lemma track_of_one_waypoint :
  Track_init "point" [[0; 0; 0; 1; 0; -1]]%float = Raise ValueError
  /\ Track_init (T := float) "empty" (waypoint_array []) = Raise ValueError.
Proof. split; reflexivity. Qed.

(** C6 as stated fails: for the two waypoints of the specification's
    scenario the ring has 5 points, not 4: Shapely closes it with a
    copy of its first point; and it starts at [(0, -1)], a point of
    the waypoint array, while [outer_border] starts at [(0, -100)]. *)
Lemma road_poly_ring_of_two_waypoints :
  exists t : Track float,
    Track_init "straight" [[0; 0; 0; 1; 0; -1]; [10; 0; 10; 1; 10; -1]]%float = Return t
    /\ exterior (road_poly t) = [[0; -1]; [10; -1]; [10; 1]; [0; 1]; [0; -1]]%float
    /\ List.length (exterior (road_poly t)) = 5
    /\ outer_border t = [[0; -100]; [1000; -100]]%float.
Proof. eexists. split; [vm_compute; reflexivity|]. vm_compute. repeat split. Qed.

(** ** GeometryUtils *)

Module GeometryFacts.

Import Exact Geometry.
Open Scope R_scope.

Lemma Reqb_true (a b : R) : a = b -> Reqb a b = true.
Proof. intros E. unfold Reqb. destruct (Req_dec_T a b); [reflexivity | contradiction]. Qed.

Lemma Reqb_false (a b : R) : a <> b -> Reqb a b = false.
Proof. intros E. unfold Reqb. destruct (Req_dec_T a b); [contradiction | reflexivity]. Qed.

Lemma Rltb_true (a b : R) : a < b -> Rltb a b = true.
Proof. intros E. unfold Rltb. destruct (Rlt_dec a b); [reflexivity | contradiction]. Qed.

Lemma Rltb_false (a b : R) : b <= a -> Rltb a b = false.
Proof. intros E. unfold Rltb. destruct (Rlt_dec a b); [lra | reflexivity]. Qed.

Lemma Rltb_spec (a b : R) : if Rltb a b then a < b else b <= a.
Proof. unfold Rltb. destruct (Rlt_dec a b); lra. Qed.

Lemma Reqb_spec (a b : R) : if Reqb a b then a = b else a <> b.
Proof. unfold Reqb. destruct (Req_dec_T a b); assumption. Qed.

(** [inf * -1] and its like: multiplying by [-1] is negating. *)
Lemma xmul_minus_one (a : xreal) : xmul a (Fin (-1)) = xneg a.
Proof.
  destruct a as [r| | |]; cbn; try reflexivity.
  - f_equal. ring.
  - unfold signed_inf. rewrite Reqb_false by lra. rewrite Rltb_false by lra. reflexivity.
  - unfold signed_inf. rewrite Reqb_false by lra. rewrite Rltb_true by lra. reflexivity.
Qed.

Lemma xneg_involutive (a : xreal) : xneg (xneg a) = a.
Proof. destruct a; cbn; try reflexivity. f_equal. ring. Qed.

(** The code's perpendicular of [(a, b)] is [(-b, a)], also at the
    special values. *)
Lemma perpendicular_vector_exact (a b : xreal) :
  GeometryUtils.perpendicular_vector (a, b) = (xneg b, a).
Proof.
  unfold GeometryUtils.perpendicular_vector, np.first_two, np.cross23. cbn.
  rewrite !xmul_minus_one, xneg_involutive. reflexivity.
Qed.

Lemma sum_squares_nonneg (x y : R) : 0 <= x * x + y * y.
Proof. nra. Qed.

Lemma sum_squares_pos (x y : R) : x <> 0 \/ y <> 0 -> 0 < x * x + y * y.
Proof. intros [E|E]; nra. Qed.

(** The length of a vector with real coordinates. *)
Lemma get_vector_length_point (x y : R) :
  GeometryUtils.get_vector_length (point x y) = Fin (R_sqrt.sqrt (x * x + y * y)).
Proof.
  unfold GeometryUtils.get_vector_length, np.linalg_norm, np.dot, point. cbn.
  rewrite Rltb_false by apply sum_squares_nonneg. reflexivity.
Qed.

Lemma length_pos (x y : R) : x <> 0 \/ y <> 0 -> 0 < R_sqrt.sqrt (x * x + y * y).
Proof. intros E. apply sqrt_lt_R0, sum_squares_pos, E. Qed.

Lemma normalize_vector_point (x y : R) :
  x <> 0 \/ y <> 0 ->
  GeometryUtils.normalize_vector (point x y) =
  Return (point (x / R_sqrt.sqrt (x * x + y * y)) (y / R_sqrt.sqrt (x * x + y * y))).
Proof.
  intros E. unfold GeometryUtils.normalize_vector, np.divide2.
  rewrite get_vector_length_point. unfold point. cbn.
  pose proof (length_pos E) as L.
  rewrite Reqb_false by lra. reflexivity.
Qed.

Lemma normalize_vector_zero :
  GeometryUtils.normalize_vector (point 0 0) = Return (NaN, NaN).
Proof.
  unfold GeometryUtils.normalize_vector, np.divide2.
  rewrite get_vector_length_point. unfold point. cbn.
  replace (0 * 0 + 0 * 0) with 0 by ring. rewrite sqrt_0.
  rewrite Reqb_true by reflexivity. unfold signed_inf.
  rewrite Reqb_true by reflexivity. reflexivity.
Qed.

Lemma perpendicular_vector_point (x y : R) :
  GeometryUtils.perpendicular_vector (point x y) = point (- y) x.
Proof. unfold point. rewrite perpendicular_vector_exact. reflexivity. Qed.

(** C4, as the code has it: for every vector [(x, y)],
    [perpendicular_vector] is [(-y, x)], the vector turned by +90
    degrees (counter-clockwise), and it is the first two components of
    the 3D cross product of [(x, y, 0)] with [(0, 0, -1)]. *)
Theorem perpendicular_vector_turns_counterclockwise :
  forall x y : R,
    GeometryUtils.perpendicular_vector (point x y) = point (- y) x
    /\ GeometryUtils.perpendicular_vector (point x y) = rotate (PI / 2) x y
    /\ GeometryUtils.perpendicular_vector (point x y) =
       np.first_two (np.cross (Fin x, Fin y, Fin 0) (Fin 0, Fin 0, Fin (-1))).
Proof.
  intros x y. rewrite perpendicular_vector_point. repeat split.
  - unfold rotate, point. rewrite cos_PI2, sin_PI2. f_equal; f_equal; ring.
  - unfold point, np.first_two, np.cross. cbn. f_equal; f_equal; ring.
Qed.

(** C4 as stated fails: the code turns [(1, 0)] to [(-0.0, 1)], whose
    second coordinate is not the [-1] of [(y, -x) = (0, -1)]. *)
Lemma perpendicular_vector_is_not_clockwise :
  GeometryUtils.perpendicular_vector (1, 0)%float = (-0, 1)%float
  /\ np.equal (snd (GeometryUtils.perpendicular_vector (1, 0)%float)) (-1)%float = false.
Proof. split; vm_compute; reflexivity. Qed.




(** [normalize_vector] returns, whatever the vector. *)
Lemma normalize_vector_returns {T : Type} `{np.Scalar T} (v : np.vec2) :
  Py.returns (GeometryUtils.normalize_vector v).
Proof. eexists. reflexivity. Qed.

Lemma returns_not_raises {A : Type} (m : result A) :
  Py.returns m -> ~ Py.raises m.
Proof. intros [a Ea] [e Ee]. congruence. Qed.

(** C3, as the code has it: [normalize_vector] raises on no vector;
    on the zero vector numpy's division gives [(nan, nan)], on binary64
    as in exact arithmetic, and so does
    [perpendicular_normalized_vector_to_straight_line]; for every
    non-zero vector [v] it returns [v / length(v)]. *)
Theorem normalize_vector_zero_is_nan :
  (forall v : np.vec2 (T := xreal), Py.returns (GeometryUtils.normalize_vector v))
  /\ GeometryUtils.normalize_vector (0, 0)%float = Return (nan, nan)
  /\ GeometryUtils.normalize_vector (point 0 0) = Return (NaN, NaN)
  /\ GeometryUtils.perpendicular_normalized_vector_to_straight_line (point 0 0)
     = Return (NaN, NaN)
  /\ (forall x y : R,
        x <> 0 \/ y <> 0 ->
        exists n : R,
          GeometryUtils.get_vector_length (point x y) = Fin n
          /\ n <> 0
          /\ GeometryUtils.normalize_vector (point x y) = Return (point (x / n) (y / n))).
Proof.
  split; [intros v; apply normalize_vector_returns|].
  split; [vm_compute; reflexivity|].
  split; [apply normalize_vector_zero|].
  split.
  - unfold GeometryUtils.perpendicular_normalized_vector_to_straight_line.
    rewrite perpendicular_vector_point.
    replace (- 0) with 0 by ring. apply normalize_vector_zero.
  - intros x y E. exists (R_sqrt.sqrt (x * x + y * y)).
    split; [apply get_vector_length_point|].
    split; [pose proof (length_pos E); lra|].
    apply normalize_vector_point, E.
Qed.

(** C3 at the vector [(3, 4)], of length 5. *)
Lemma normalize_vector_3_4 :
  (3 <> 0 \/ 4 <> 0)
  /\ exists n : R,
      GeometryUtils.get_vector_length (point 3 4) = Fin n
      /\ n <> 0
      /\ GeometryUtils.normalize_vector (point 3 4) = Return (point (3 / n) (4 / n)).
Proof.
  assert (E : 3 <> 0 \/ 4 <> 0) by (left; lra).
  split; [exact E|].
  exact (proj2 (proj2 (proj2 (proj2 normalize_vector_zero_is_nan))) 3 4 E).
Defined.

(** C3 as stated fails: on the zero vector, binary64, [normalize_vector]
    and [perpendicular_normalized_vector_to_straight_line] return
    [(nan, nan)]; nothing is raised. *)
Lemma normalize_vector_zero_does_not_raise :
  GeometryUtils.normalize_vector (0, 0)%float = Return (nan, nan)
  /\ GeometryUtils.perpendicular_normalized_vector_to_straight_line (0, 0)%float
     = Return (nan, nan)
  /\ ~ Py.raises (GeometryUtils.normalize_vector (0, 0)%float).
Proof.
  split; [vm_compute; reflexivity|].
  split; [vm_compute; reflexivity|].
  apply returns_not_raises, normalize_vector_returns.
Qed.

(** *** Rounding *)

Lemma rint_R_close (r : R) : Rabs (IZR (rint_R r) - r) <= 1 / 2.
Proof.
  unfold rint_R. destruct (base_Int_part r) as [Lo Hi].
  set (f := Int_part r) in *.
  unfold Rltb.
  destruct (Rlt_dec (r - IZR f) (1 / 2)) as [A|A].
  - apply Rabs_le. lra.
  - destruct (Rlt_dec (1 / 2) (r - IZR f)) as [B|B].
    + rewrite plus_IZR. apply Rabs_le. lra.
    + destruct (Z.even f); [|rewrite plus_IZR]; apply Rabs_le; lra.
Qed.

Lemma Int_part_IZR (k : Z) : Int_part (IZR k) = k.
Proof.
  destruct (base_Int_part (IZR k)) as [Lo Hi].
  apply le_IZR in Lo.
  assert (Hi' : IZR k < IZR (Int_part (IZR k) + 1)) by (rewrite plus_IZR; lra).
  apply lt_IZR in Hi'. lia.
Qed.

Lemma rint_R_IZR (k : Z) : rint_R (IZR k) = k.
Proof.
  unfold rint_R. rewrite Int_part_IZR.
  rewrite Rltb_true by lra. reflexivity.
Qed.

Lemma round_3_Fin (v : R) :
  np.round (Fin v) 3 = Fin (IZR (rint_R (v * 1000)) / 1000).
Proof.
  unfold np.round. cbn.
  rewrite Reqb_false by lra. reflexivity.
Qed.

Lemma round_3_rounded (v : R) :
  rounded_3 v (IZR (rint_R (v * 1000)) / 1000).
Proof.
  exists (rint_R (v * 1000)). split; [reflexivity | apply rint_R_close].
Qed.

(** *** Crossing point *)

Lemma homogeneous_crossing_point (x1 y1 x2 y2 x3 y3 x4 y4 : R) :
  GeometryUtils.homogeneous_crossing
    (point x1 y1) (point x2 y2) (point x3 y3) (point x4 y4)
  = (Fin (meet_x x1 y1 x2 y2 x3 y3 x4 y4),
     Fin (meet_y x1 y1 x2 y2 x3 y3 x4 y4),
     Fin (meet_z x1 y1 x2 y2 x3 y3 x4 y4)).
Proof.
  unfold GeometryUtils.homogeneous_crossing, np.homogeneous, np.cross, point.
  unfold meet_x, meet_y, meet_z, meet, line_through. cbn.
  f_equal; [f_equal|]; f_equal; ring.
Qed.

Lemma crossing_point_parallel (x1 y1 x2 y2 x3 y3 x4 y4 : R) :
  meet_z x1 y1 x2 y2 x3 y3 x4 y4 = 0 ->
  GeometryUtils.crossing_point_for_two_lines
    (point x1 y1) (point x2 y2) (point x3 y3) (point x4 y4)
  = Return (PInf, PInf).
Proof.
  intros Z. unfold GeometryUtils.crossing_point_for_two_lines.
  rewrite homogeneous_crossing_point. cbn.
  rewrite Reqb_true by exact Z. reflexivity.
Qed.

Lemma crossing_point_meeting (x1 y1 x2 y2 x3 y3 x4 y4 : R) :
  meet_z x1 y1 x2 y2 x3 y3 x4 y4 <> 0 ->
  GeometryUtils.crossing_point_for_two_lines
    (point x1 y1) (point x2 y2) (point x3 y3) (point x4 y4)
  = Return
      (np.round (Fin (meet_x x1 y1 x2 y2 x3 y3 x4 y4 / meet_z x1 y1 x2 y2 x3 y3 x4 y4)) 3,
       np.round (Fin (meet_y x1 y1 x2 y2 x3 y3 x4 y4 / meet_z x1 y1 x2 y2 x3 y3 x4 y4)) 3).
Proof.
  intros Z. unfold GeometryUtils.crossing_point_for_two_lines.
  rewrite homogeneous_crossing_point.
  cbn [np.equal np.of_Z scalar xeqb np.true_divide xdiv].
  rewrite Reqb_false by exact Z. reflexivity.
Qed.

Lemma meeting_point_on_lines (x1 y1 x2 y2 x3 y3 x4 y4 : R) :
  let X := meet_x x1 y1 x2 y2 x3 y3 x4 y4 in
  let Y := meet_y x1 y1 x2 y2 x3 y3 x4 y4 in
  let Z := meet_z x1 y1 x2 y2 x3 y3 x4 y4 in
  Z <> 0 ->
  on_line x1 y1 x2 y2 (X / Z) (Y / Z) /\ on_line x3 y3 x4 y4 (X / Z) (Y / Z).
Proof.
  intros X Y Z NZ. subst X Y Z.
  unfold on_line, meet_x, meet_y, meet_z in *. cbn in *.
  split; field_simplify_eq; try exact NZ; ring.
Qed.

(** The parallel lines of the specification, on binary64: the
    sentinel. *)
Lemma crossing_point_parallel_float :
  GeometryUtils.crossing_point_for_two_lines (0, 0)%float (1, 1)%float (0, 1)%float (1, 2)%float
  = Return (infinity, infinity).
Proof. vm_compute. reflexivity. Qed.

(** C2, as the code has it. On every carrier, with [(x, y, z)] the
    cross product of the two homogeneous lines,
    [crossing_point_for_two_lines] raises nothing, returns the
    sentinel [(inf, inf)] when [z == 0] and
    [(round(x / z, 3), round(y / z, 3))] otherwise. In exact
    arithmetic, for points with real coordinates, the result is the
    sentinel if and only if [z] is zero, and otherwise [(x / z, y / z)]
    lies on both lines and is returned with each coordinate rounded to
    3 decimals. On binary64 the quotient or the rounding can overflow,
    so that [(inf, inf)] is also returned for lines that do cross. *)
Theorem crossing_point_sentinel_when_parallel :
  (forall (T : Type) (S : np.Scalar T) (l1_p1 l1_p2 l2_p1 l2_p2 : np.vec2 (T := T)),
      let h := GeometryUtils.homogeneous_crossing l1_p1 l1_p2 l2_p1 l2_p2 in
      let x := fst (fst h) in
      let y := snd (fst h) in
      let z := snd h in
      Py.returns (GeometryUtils.crossing_point_for_two_lines l1_p1 l1_p2 l2_p1 l2_p2)
      /\ (np.equal z (np.of_Z 0) = true ->
          GeometryUtils.crossing_point_for_two_lines l1_p1 l1_p2 l2_p1 l2_p2
          = Return (np.inf, np.inf))
      /\ (np.equal z (np.of_Z 0) = false ->
          GeometryUtils.crossing_point_for_two_lines l1_p1 l1_p2 l2_p1 l2_p2
          = Return (np.round (np.true_divide x z) 3, np.round (np.true_divide y z) 3)))
  /\ forall x1 y1 x2 y2 x3 y3 x4 y4 : R,
      let r := GeometryUtils.crossing_point_for_two_lines
                 (point x1 y1) (point x2 y2) (point x3 y3) (point x4 y4) in
      let X := meet_x x1 y1 x2 y2 x3 y3 x4 y4 in
      let Y := meet_y x1 y1 x2 y2 x3 y3 x4 y4 in
      let Z := meet_z x1 y1 x2 y2 x3 y3 x4 y4 in
      GeometryUtils.homogeneous_crossing
        (point x1 y1) (point x2 y2) (point x3 y3) (point x4 y4) = (Fin X, Fin Y, Fin Z)
      /\ (r = Return (np.inf, np.inf) <-> Z = 0)
      /\ (Z <> 0 ->
          exists X' Y',
            r = Return (point X' Y')
            /\ rounded_3 (X / Z) X' /\ rounded_3 (Y / Z) Y'
            /\ on_line x1 y1 x2 y2 (X / Z) (Y / Z)
            /\ on_line x3 y3 x4 y4 (X / Z) (Y / Z)).
Proof.
  split.
  - intros T S l1_p1 l1_p2 l2_p1 l2_p2 h x y z. subst x y z.
    unfold GeometryUtils.crossing_point_for_two_lines. fold h.
    destruct h as [[x y] z]. cbn [fst snd].
    destruct (np.equal z (np.of_Z 0)).
    + split; [eexists; reflexivity|]. split; [reflexivity | discriminate].
    + split; [eexists; reflexivity|]. split; [discriminate | reflexivity].
  - intros x1 y1 x2 y2 x3 y3 x4 y4 r X Y Z.
    split; [apply homogeneous_crossing_point|].
    assert (M : Z <> 0 ->
                r = Return (point (IZR (rint_R (X / Z * 1000)) / 1000)
                                  (IZR (rint_R (Y / Z * 1000)) / 1000))).
    { intros NZ. subst r. rewrite crossing_point_meeting by exact NZ.
      rewrite !round_3_Fin. reflexivity. }
    split.
    + split.
      * intros E. destruct (Req_dec_T Z 0) as [z|nz]; [exact z|].
        rewrite (M nz) in E. discriminate E.
      * intros z. apply crossing_point_parallel, z.
    + intros NZ. eexists _, _. split; [apply M, NZ|].
      split; [apply round_3_rounded|]. split; [apply round_3_rounded|].
      apply meeting_point_on_lines, NZ.
Qed.

(** C2 at the lines through [(0,0)-(1,0)] and [(0,0)-(0,1)], which
    meet in the origin. *)
Lemma crossing_point_of_the_axes :
  meet_z 0 0 1 0 0 0 0 1 <> 0
  /\ exists X' Y',
      GeometryUtils.crossing_point_for_two_lines
        (point 0 0) (point 1 0) (point 0 0) (point 0 1) = Return (point X' Y')
      /\ rounded_3 (meet_x 0 0 1 0 0 0 0 1 / meet_z 0 0 1 0 0 0 0 1) X'
      /\ rounded_3 (meet_y 0 0 1 0 0 0 0 1 / meet_z 0 0 1 0 0 0 0 1) Y'
      /\ on_line 0 0 1 0 (meet_x 0 0 1 0 0 0 0 1 / meet_z 0 0 1 0 0 0 0 1)
                         (meet_y 0 0 1 0 0 0 0 1 / meet_z 0 0 1 0 0 0 0 1)
      /\ on_line 0 0 0 1 (meet_x 0 0 1 0 0 0 0 1 / meet_z 0 0 1 0 0 0 0 1)
                         (meet_y 0 0 1 0 0 0 0 1 / meet_z 0 0 1 0 0 0 0 1).
Proof.
  assert (NZ : meet_z 0 0 1 0 0 0 0 1 <> 0) by (unfold meet_z; cbn; lra).
  split; [exact NZ|].
  exact (proj2 (proj2 (proj2 crossing_point_sentinel_when_parallel 0 0 1 0 0 0 0 1)) NZ).
Defined.

(** C2 as stated fails on binary64: the lines [x = 1e306] and
    [y = 1e306] cross in [(1e306, 1e306)] and [z] is [-1], yet the
    result is [(inf, inf)]: [np.round] multiplies by 1000, which
    overflows. *)
Lemma crossing_point_overflows_to_the_sentinel :
  GeometryUtils.homogeneous_crossing
    (1e306, 0)%float (1e306, 1)%float (0, 1e306)%float (1, 1e306)%float
  = (-1e306, -1e306, -1)%float
  /\ np.equal (-1)%float (np.of_Z 0) = false
  /\ GeometryUtils.crossing_point_for_two_lines
       (1e306, 0)%float (1e306, 1)%float (0, 1e306)%float (1, 1e306)%float
     = Return (infinity, infinity).
Proof. repeat split; vm_compute; reflexivity. Qed.

(** *** Angles *)

Lemma vector_point (x1 y1 x2 y2 : R) :
  GeometryUtils.vector (point x1 y1) (point x2 y2) = point (x1 - x2) (y1 - y2).
Proof. reflexivity. Qed.

(** The multiplier, in exact arithmetic: the quotient. *)
Lemma multiplier_exact (p r : R) :
  p <> 0 ->
  (if np.greater_equal (np.fabs (Fin p)) np.sfmin
   then np.multiply (Fin r) (np.true_divide (np.of_Z 1) (Fin p))
   else np.true_divide (Fin r) (Fin p)) = Fin (r / p).
Proof.
  intros P. destruct (np.greater_equal _ _); cbn -[sfmin_R Rabs].
  - rewrite Reqb_false by exact P. cbn. f_equal. field. exact P.
  - rewrite Reqb_false by exact P. reflexivity.
Qed.

Lemma slogdet_step_exact (sign logdet u : R) :
  u <> 0 ->
  np.slogdet_step (Fin sign, Fin logdet) (Fin u)
  = (Fin (if Rltb u 0 then - sign else sign), Fin (logdet + ln (Rabs u))).
Proof.
  intros U. unfold np.slogdet_step. cbn.
  pose proof (Rltb_spec u 0) as S. destruct (Rltb u 0).
  - cbn. rewrite Rltb_true by lra. rewrite Rabs_left by lra. reflexivity.
  - rewrite Rltb_true by lra. rewrite Rabs_right by lra. reflexivity.
Qed.

(** [dgetrf] in exact arithmetic, after the exchange of rows. *)
Lemma getrf_exact (a b c d : R) :
  np.getrf (Fin a) (Fin b) (Fin c) (Fin d)
  = let swapped := Rltb (Rabs a) (Rabs c) in
    let p := if swapped then c else a in
    let q := if swapped then d else b in
    let r := if swapped then a else c in
    let s := if swapped then b else d in
    if Reqb p 0 then None
    else if Reqb (s - r / p * q) 0 then None
    else Some (swapped, Fin p, Fin (s - r / p * q)).
Proof.
  unfold np.getrf.
  change (np.less (np.fabs (Fin a)) (np.fabs (Fin c))) with (Rltb (Rabs a) (Rabs c)).
  destruct (Rltb (Rabs a) (Rabs c)); cbv zeta.
  - change (np.equal (Fin c) (np.of_Z 0)) with (Reqb c 0).
    pose proof (Reqb_spec c 0) as P. destruct (Reqb c 0); [reflexivity|].
    rewrite multiplier_exact by exact P. reflexivity.
  - change (np.equal (Fin a) (np.of_Z 0)) with (Reqb a 0).
    pose proof (Reqb_spec a 0) as P. destruct (Reqb a 0); [reflexivity|].
    rewrite multiplier_exact by exact P. reflexivity.
Qed.

(** In exact arithmetic the determinant that numpy computes from the
    LU factorisation is [a * d - b * c]. *)
Lemma linalg_det_point (a b c d : R) :
  np.linalg_det (point a b) (point c d) = Fin (a * d - b * c).
Proof.
  unfold np.linalg_det, np.slogdet, point. cbn [fst snd].
  rewrite getrf_exact. cbv zeta.
  pose proof (Rltb_spec (Rabs a) (Rabs c)) as W.
  destruct (Rltb (Rabs a) (Rabs c)).
  - (* rows exchanged: the pivot is c *)
    pose proof (Reqb_spec c 0) as P. destruct (Reqb c 0).
    + subst c. rewrite Rabs_R0 in W. pose proof (Rabs_pos a). lra.
    + pose proof (Reqb_spec (b - a / c * d) 0) as U. destruct (Reqb (b - a / c * d) 0).
      * cbn. f_equal.
        assert (E : a * d - b * c = - c * (b - a / c * d)) by (field; exact P).
        rewrite E, U. ring.
      * change (np.of_Z (-1)) with (Fin (-1)). change (np.of_Z 0) with (Fin 0).
        rewrite !slogdet_step_exact by assumption.
        cbn. f_equal. rewrite Rplus_0_l, exp_plus, !exp_ln by (apply Rabs_pos_lt; assumption).
        pose proof (Rltb_spec c 0) as Sc. pose proof (Rltb_spec (b - a / c * d) 0) as Su.
        destruct (Rltb c 0), (Rltb (b - a / c * d) 0);
          repeat first [rewrite (Rabs_left c) by lra | rewrite (Rabs_right c) by lra
                       | rewrite (Rabs_left (b - a / c * d)) by lra
                       | rewrite (Rabs_right (b - a / c * d)) by lra];
          field; exact P.
  - pose proof (Reqb_spec a 0) as P. destruct (Reqb a 0).
    + subst a. rewrite Rabs_R0 in W. pose proof (Rabs_pos c).
      assert (C : c = 0).
      { destruct (Req_dec_T c 0) as [E|E]; [exact E|].
        pose proof (Rabs_pos_lt c E). lra. }
      subst c. cbn. f_equal. ring.
    + pose proof (Reqb_spec (d - c / a * b) 0) as U. destruct (Reqb (d - c / a * b) 0).
      * cbn. f_equal.
        assert (E : a * d - b * c = a * (d - c / a * b)) by (field; exact P).
        rewrite E, U. ring.
      * change (np.of_Z 1) with (Fin 1). change (np.of_Z 0) with (Fin 0).
        rewrite !slogdet_step_exact by assumption.
        cbn. f_equal. rewrite Rplus_0_l, exp_plus, !exp_ln by (apply Rabs_pos_lt; assumption).
        pose proof (Rltb_spec a 0) as Sa. pose proof (Rltb_spec (d - c / a * b) 0) as Su.
        destruct (Rltb a 0), (Rltb (d - c / a * b) 0);
          repeat first [rewrite (Rabs_left a) by lra | rewrite (Rabs_right a) by lra
                       | rewrite (Rabs_left (d - c / a * b)) by lra
                       | rewrite (Rabs_right (d - c / a * b)) by lra];
          field; exact P.
Qed.

Lemma get_angle_point (a b c d : R) :
  GeometryUtils.get_angle (point a b) (point c d)
  = Fin (atan2_R (a * d - b * c) (a * c + b * d) * (180 / PI)).
Proof. unfold GeometryUtils.get_angle. rewrite linalg_det_point. reflexivity. Qed.

(** The angle of a point on the positive x axis, or of the origin. *)
Lemma atan2_R_0 (x : R) : 0 <= x -> atan2_R 0 x = 0.
Proof.
  intros P. unfold atan2_R, Rltb.
  destruct (Rlt_dec 0 x) as [A|A].
  - unfold Rdiv. rewrite Rmult_0_l. apply atan_0.
  - destruct (Rlt_dec x 0); [lra|].
    destruct (Rlt_dec 0 0); [lra|]. reflexivity.
Qed.

Lemma atan2_R_opp (y x : R) : y <> 0 -> atan2_R (- y) x = - atan2_R y x.
Proof.
  intros NZ. unfold atan2_R, Rltb.
  assert (A : x <> 0 -> atan (- y / x) = - atan (y / x)).
  { intros nx. replace (- y / x) with (- (y / x)) by (field; exact nx). apply atan_opp. }
  destruct (Rlt_dec 0 x) as [Px|Px].
  - apply A. lra.
  - destruct (Rlt_dec x 0) as [Nx|Nx].
    + rewrite A by lra.
      destruct (Rlt_dec (- y) 0), (Rlt_dec y 0); lra.
    + destruct (Rlt_dec 0 (- y)), (Rlt_dec 0 y), (Rlt_dec (- y) 0), (Rlt_dec y 0); lra.
Qed.

Lemma get_angle_self (a b : R) :
  GeometryUtils.get_angle (point a b) (point a b) = Fin 0.
Proof.
  rewrite get_angle_point.
  replace (a * b - b * a) with 0 by ring.
  rewrite atan2_R_0 by apply sum_squares_nonneg.
  f_equal. ring.
Qed.

(** The values of [annex_F] contradict each other nowhere. *)
Lemma annex_F_special_values : Binary64.annex_F Binary64.special_values.
Proof.
  unfold Binary64.annex_F, Binary64.special_values. cbn.
  repeat split; try reflexivity; intros x E; rewrite E; reflexivity.
Qed.



(** C9, as the code has it: in exact arithmetic, for all non-zero,
    non-parallel vectors [v1], [v2] with real coordinates,
    [get_angle(v1, v2)] is [-get_angle(v2, v1)]. On binary64 the
    determinant is rounded: when the LU factorisation meets a zero
    pivot and the dot product is negative, both orders give 180. *)
Theorem get_angle_antisymmetric :
  forall a b c d : R,
    a <> 0 \/ b <> 0 ->
    c <> 0 \/ d <> 0 ->
    a * d - b * c <> 0 ->
    GeometryUtils.get_angle (point a b) (point c d)
    = np.negative (GeometryUtils.get_angle (point c d) (point a b)).
Proof.
  intros a b c d _ _ NP.
  rewrite !get_angle_point. cbn. f_equal.
  replace (c * b - d * a) with (- (a * d - b * c)) by ring.
  replace (c * a + d * b) with (a * c + b * d) by ring.
  rewrite atan2_R_opp by exact NP. ring.
Qed.

(** C9 at the unit vectors of the axes. *)
Lemma get_angle_antisymmetric_axes :
  GeometryUtils.get_angle (point 1 0) (point 0 1)
  = np.negative (GeometryUtils.get_angle (point 0 1) (point 1 0)).
Proof.
  apply get_angle_antisymmetric; [left; lra | right; lra | lra].
Defined.

(** C9 as stated fails on binary64, with any C library: [(3, 1)] and
    [(-1, -0.3333333333333333)] are not parallel, since the second
    coordinate is [-6004799503160661 / 2^54] and three times that
    numerator is not [2^54]; but the multiplier of the LU
    factorisation is [-0.3333333333333333], the second pivot is 0, the
    determinant is 0 in both orders and both angles are 180. *)
Lemma get_angle_of_a_rounded_determinant :
  Binary64.annex_F Binary64.special_values
  /\ Prim2SF 0.3333333333333333%float = S754_finite false 6004799503160661 (-54)
  /\ (3 * 6004799503160661 <> 2 ^ 54)%Z
  /\ forall m : Binary64.libm,
      Binary64.annex_F m ->
      @GeometryUtils.get_angle float _ (Binary64.C_library m)
        (3, 1)%float (-1, -0.3333333333333333)%float = 180%float
      /\ @GeometryUtils.get_angle float _ (Binary64.C_library m)
           (-1, -0.3333333333333333)%float (3, 1)%float = 180%float
      /\ np.equal 180%float (np.negative 180%float) = false.
Proof.
  split; [apply annex_F_special_values|].
  split; [vm_compute; reflexivity|]. split; [vm_compute; discriminate|].
  intros m (Eninf & Enan & Linf & Lnan & Anan & Apos & Aneg).
  pose proof (Aneg (-0x1.aaaaaaaaaaaabp+1)%float eq_refl) as A.
  vm_compute in Eninf, A.
  repeat split.
  - vm_compute. rewrite Eninf. vm_compute. rewrite A. reflexivity.
  - vm_compute. rewrite Eninf. vm_compute. rewrite A. reflexivity.
Qed.

(** *** Slope and intercept *)

Lemma signed_inf_not_finite (r : R) : is_finite (signed_inf r) = false.
Proof.
  unfold signed_inf. destruct (Reqb r 0); [reflexivity|].
  destruct (Rltb 0 r); reflexivity.
Qed.




(** *** The closest point *)

Lemma add2_point (x1 y1 x2 y2 : R) :
  np.add2 (point x1 y1) (point x2 y2) = point (x1 + x2) (y1 + y2).
Proof. reflexivity. Qed.

Lemma round_3_IZR (k : Z) : np.round (Fin (IZR k)) 3 = Fin (IZR k).
Proof.
  rewrite round_3_Fin. f_equal.
  replace (IZR k * 1000) with (IZR (k * 1000)) by (rewrite mult_IZR; reflexivity).
  rewrite rint_R_IZR, mult_IZR. field.
Qed.

(** The unit normal of the line through [(0, 0)] and [(10, 0)], as the
    code orients it. *)
Lemma unit_normal_of_the_x_axis :
  GeometryUtils.perpendicular_normalized_vector_to_straight_line
    (GeometryUtils.vector (point 0 0) (point 10 0))
  = Return (point 0 (-1)).
Proof.
  rewrite vector_point.
  unfold GeometryUtils.perpendicular_normalized_vector_to_straight_line.
  rewrite perpendicular_vector_point.
  rewrite normalize_vector_point by (right; lra).
  replace (- (0 - 0) * - (0 - 0) + (0 - 10) * (0 - 10)) with (10 * 10) by ring.
  rewrite sqrt_square by lra.
  unfold point. do 3 f_equal; field.
Qed.

Lemma closest_point_exact :
  GeometryUtils.get_a_point_on_a_line_closest_to_point
    (point 0 0) (point 10 0) (point 5 5)
  = Return (point 5 0).
Proof.
  unfold GeometryUtils.get_a_point_on_a_line_closest_to_point.
  rewrite unit_normal_of_the_x_axis. cbn [Py.bind].
  rewrite add2_point.
  assert (Z : meet_z 0 0 10 0 5 5 (5 + 0) (5 + -1) = -10)
    by (unfold meet_z; cbn; ring).
  rewrite crossing_point_meeting by (rewrite Z; lra).
  rewrite Z.
  replace (meet_x 0 0 10 0 5 5 (5 + 0) (5 + -1) / -10) with (IZR 5)
    by (unfold meet_x; cbn; field).
  replace (meet_y 0 0 10 0 5 5 (5 + 0) (5 + -1) / -10) with (IZR 0)
    by (unfold meet_y; cbn; field).
  rewrite !round_3_IZR. reflexivity.
Qed.

(** C8: [get_a_point_on_a_line_closest_to_point((0,0), (10,0), (5,5))]
    returns a point equal ([==]) to [(5.0, 0.0)] on binary64, and
    [(5, 0)] in exact arithmetic; that point lies on the line through
    [(0,0)] and [(10,0)], and the vector from it to [(5,5)] has dot
    product 0 with the direction of the line. *)
Theorem closest_point_scenario :
  (exists x y : float,
      GeometryUtils.get_a_point_on_a_line_closest_to_point
        (0, 0)%float (10, 0)%float (5, 5)%float = Return (x, y)
      /\ np.equal x 5%float = true /\ np.equal y 0%float = true)
  /\ GeometryUtils.get_a_point_on_a_line_closest_to_point
       (point 0 0) (point 10 0) (point 5 5) = Return (point 5 0)
  /\ on_line 0 0 10 0 5 0
  /\ np.dot (GeometryUtils.vector (point 5 5) (point 5 0))
            (GeometryUtils.vector (point 10 0) (point 0 0)) = Fin 0.
Proof.
  split; [|split; [|split]].
  - exists 5%float, (-0)%float. repeat split; vm_compute; reflexivity.
  - apply closest_point_exact.
  - unfold on_line. ring.
  - rewrite !vector_point. unfold np.dot, point. cbn. f_equal. ring.
Qed.

End GeometryFacts.

(** ** TrackIO *)

Module TrackIOFacts.

Open Scope string_scope.

Lemma length_append (s t : string) :
  String.length (s ++ t) = (String.length s + String.length t)%nat.
Proof. induction s as [|c s IH]; cbn; [reflexivity | rewrite IH; reflexivity]. Qed.

Lemma substring_0_length (t : string) : substring 0 (String.length t) t = t.
Proof. induction t as [|c t IH]; cbn; [reflexivity | rewrite IH; reflexivity]. Qed.

Lemma substring_0_append (s t : string) :
  substring 0 (String.length s) (s ++ t) = s.
Proof.
  induction s as [|c s IH]; cbn.
  - destruct t; reflexivity.
  - rewrite IH. reflexivity.
Qed.

Lemma substring_skip_append (s t : string) (n : nat) :
  substring (String.length s) n (s ++ t) = substring 0 n t.
Proof. induction s as [|c s IH]; cbn; [reflexivity | exact IH]. Qed.

Lemma endswith_append_npy (s : string) : str.endswith (s ++ ".npy") ".npy" = true.
Proof.
  unfold str.endswith. rewrite length_append.
  replace (String.length ".npy") with 4%nat by reflexivity.
  replace (String.length s + 4 - 4)%nat with (String.length s) by lia.
  rewrite substring_skip_append.
  replace (4 <=? String.length s + 4)%nat with true
    by (symmetry; apply Nat.leb_le; lia).
  reflexivity.
Qed.

Lemma drop_last_append_npy (s : string) : str.drop_last 4 (s ++ ".npy") = s.
Proof.
  unfold str.drop_last. rewrite length_append.
  replace (String.length s + String.length ".npy" - 4)%nat with (String.length s)
    by (cbn; lia).
  apply substring_0_append.
Qed.

Section Loader.

Context {T : Type} `{np.Scalar T}.
Variable np_load : string -> option (np.ndarray (T := T)).

(** X1: a track name is accepted with and without the extension: for
    a name that does not itself end in [.npy],
    [get_track_waypoints(name + ".npy")] and [get_track_waypoints(name)]
    both load the file [base_path/name.npy]. *)
Theorem get_track_waypoints_extension_optional :
  forall (self : TrackIO.TrackIO) (track_name : string),
    str.endswith track_name ".npy" = false ->
    TrackIO.get_track_waypoints np_load self (track_name ++ ".npy")
    = np_load (TrackIO.base_path self ++ "/" ++ track_name ++ ".npy")
    /\ TrackIO.get_track_waypoints np_load self track_name
       = np_load (TrackIO.base_path self ++ "/" ++ track_name ++ ".npy").
Proof.
  intros self track_name E. unfold TrackIO.get_track_waypoints.
  rewrite endswith_append_npy, drop_last_append_npy, E. split; reflexivity.
Qed.

(** X2: [load_track] gives the same result for [name] and
    [name + ".npy"] (for a name not ending in [.npy]): it fails when
    the file [base_path/name.npy] cannot be loaded, and otherwise
    prints the number of rows and then returns or raises as
    [Track(name, array)] does for the array of that file. *)
Theorem load_track_extension_optional :
  forall (self : TrackIO.TrackIO) (track_name : string),
    str.endswith track_name ".npy" = false ->
    TrackIO.load_track np_load self (track_name ++ ".npy")
    = TrackIO.load_track np_load self track_name
    /\ TrackIO.load_track np_load self track_name
       = match np_load (TrackIO.base_path self ++ "/" ++ track_name ++ ".npy") with
         | None => None
         | Some waypoints =>
             Some ("Loaded " ++ str.of_nat (List.length waypoints) ++ " waypoints",
                   Track_init track_name waypoints)
         end.
Proof.
  intros self track_name E.
  unfold TrackIO.load_track, TrackIO.get_track_waypoints.
  rewrite endswith_append_npy, drop_last_append_npy, !E. split; reflexivity.
Qed.

(** X3: [load_track] removes the extension twice, once itself and once
    in [get_track_waypoints]: for every name, asked for
    [name + ".npy.npy"] it loads the file [base_path/name.npy], prints
    its number of rows and then returns or raises as
    [Track(name + ".npy", array)] does, while [get_track_waypoints]
    for the same argument loads [base_path/name.npy.npy]. *)
Theorem load_track_strips_extension_twice :
  forall (self : TrackIO.TrackIO) (track_name : string),
    TrackIO.get_track_waypoints np_load self ((track_name ++ ".npy") ++ ".npy")
    = np_load (TrackIO.base_path self ++ "/" ++ (track_name ++ ".npy") ++ ".npy")
    /\ TrackIO.load_track np_load self ((track_name ++ ".npy") ++ ".npy")
       = match np_load (TrackIO.base_path self ++ "/" ++ track_name ++ ".npy") with
         | None => None
         | Some waypoints =>
             Some ("Loaded " ++ str.of_nat (List.length waypoints) ++ " waypoints",
                   Track_init (track_name ++ ".npy") waypoints)
         end.
Proof.
  intros self track_name.
  unfold TrackIO.load_track, TrackIO.get_track_waypoints.
  rewrite (endswith_append_npy (track_name ++ ".npy")).
  rewrite (drop_last_append_npy (track_name ++ ".npy")).
  rewrite (endswith_append_npy track_name), (drop_last_append_npy track_name).
  split; reflexivity.
Qed.

End Loader.

(** X1 for the track [reinvent_base] in the default folder, with no
    file present. *)
Lemma get_track_waypoints_reinvent_base :
  str.endswith "reinvent_base" ".npy" = false
  /\ TrackIO.get_track_waypoints (T := float) (fun _ => None)
       (TrackIO.init TrackIO.default_base_path) ("reinvent_base" ++ ".npy")
     = None
  /\ TrackIO.get_track_waypoints (T := float) (fun _ => None)
       (TrackIO.init TrackIO.default_base_path) "reinvent_base"
     = None.
Proof.
  assert (E : str.endswith "reinvent_base" ".npy" = false) by reflexivity.
  split; [exact E|].
  exact (get_track_waypoints_extension_optional (T := float) (fun _ => None)
           (TrackIO.init TrackIO.default_base_path) "reinvent_base" E).
Defined.

(** X2 for the track [reinvent_base] and a folder holding one file of
    two waypoints. *)
Lemma load_track_reinvent_base :
  let files := fun path : string =>
    if String.eqb path "./tracks/reinvent_base.npy"
    then Some [[0; 0; 0; 1; 0; -1]; [10; 0; 10; 1; 10; -1]]%float
    else None in
  str.endswith "reinvent_base" ".npy" = false
  /\ TrackIO.load_track files (TrackIO.init TrackIO.default_base_path)
       ("reinvent_base" ++ ".npy")
     = TrackIO.load_track files (TrackIO.init TrackIO.default_base_path) "reinvent_base"
  /\ TrackIO.load_track files (TrackIO.init TrackIO.default_base_path) "reinvent_base"
     = match files (TrackIO.base_path (TrackIO.init TrackIO.default_base_path)
                      ++ "/" ++ "reinvent_base" ++ ".npy") with
       | None => None
       | Some waypoints =>
           Some ("Loaded " ++ str.of_nat (List.length waypoints) ++ " waypoints",
                 Track_init "reinvent_base" waypoints)
       end.
Proof.
  intros files.
  assert (E : str.endswith "reinvent_base" ".npy" = false) by reflexivity.
  split; [exact E|].
  exact (load_track_extension_optional files
           (TrackIO.init TrackIO.default_base_path) "reinvent_base" E).
Defined.

End TrackIOFacts.

(** ** TrackPlotter *)

Module TrackPlotterFacts.

Import TrackPlotter.

Section Plot.

Context {T : Type}.

Lemma plot_point_six (point : list T) (calls : list call) :
  6 <= List.length point ->
  plot_point point calls = (calls ++ markers point, Some tt).
Proof.
  intros L.
  destruct point as [|cx [|cy [|ix [|iy [|ox [|oy more]]]]]]; cbn in L; try lia.
  unfold plot_point, bind, getitem, plt_scatter. cbn.
  rewrite <- !app_assoc. reflexivity.
Qed.

Lemma for_each_rows_of_six (trackpoints : list (list T)) (calls : list call) :
  Forall (fun point => 6 <= List.length point) trackpoints ->
  for_each trackpoints plot_point calls
  = (calls ++ flat_map markers trackpoints, Some tt).
Proof.
  intros F. revert calls.
  induction F as [|point rest L F IH]; intros calls; cbn.
  - rewrite app_nil_r. reflexivity.
  - unfold bind. rewrite plot_point_six by exact L. rewrite IH, <- app_assoc. reflexivity.
Qed.

Lemma for_each_app (good rest : list (list T)) (calls : list call) :
  Forall (fun point => 6 <= List.length point) good ->
  for_each (good ++ rest) plot_point calls
  = for_each rest plot_point (calls ++ flat_map markers good).
Proof.
  intros F. revert calls.
  induction F as [|point good' L F IH]; intros calls; cbn.
  - rewrite app_nil_r. reflexivity.
  - unfold bind. rewrite plot_point_six by exact L. rewrite IH, <- app_assoc. reflexivity.
Qed.

Lemma markers_count (trackpoints : list (list T)) :
  Forall (fun point => 6 <= List.length point) trackpoints ->
  List.length (flat_map (markers (T := T)) trackpoints) = 3 * List.length trackpoints.
Proof.
  induction 1 as [|point rest L F IH]; [reflexivity|].
  cbn [flat_map]. rewrite length_app, IH.
  destruct point as [|cx [|cy [|ix [|iy [|ox [|oy more]]]]]]; cbn in L; try lia.
  cbn. lia.
Qed.

(** X4: when every row has at least six entries, [plot_trackpoints]
    makes, after the calls made before it, three [scatter] calls per
    row in the order of the rows (centre blue, inner black, outer
    cyan), [3 * n] in all, then [show] exactly when [show] is true,
    and it raises nothing. *)
Theorem plot_trackpoints_three_markers_per_row :
  forall (trackpoints : list (list T)) (show : bool) (calls : list call),
    Forall (fun point => 6 <= List.length point) trackpoints ->
    plot_trackpoints trackpoints show calls
    = (calls ++ flat_map markers trackpoints ++ (if show then [Show] else []),
       Some tt)
    /\ List.length (flat_map (markers (T := T)) trackpoints)
       = 3 * List.length trackpoints.
Proof.
  intros trackpoints show calls F. split; [|apply markers_count, F].
  unfold plot_trackpoints, bind. rewrite for_each_rows_of_six by exact F.
  destruct show; unfold plt_show, ret.
  - rewrite <- app_assoc. reflexivity.
  - rewrite !app_nil_r. reflexivity.
Qed.

(** X5: at the first row with fewer than six entries,
    [plot_trackpoints] raises [IndexError]: the rows before it are
    plotted in full, of the short row one marker is plotted for every
    two entries it has, nothing of the rows after it, and [show] is
    not called, whatever [show] is. *)
Theorem plot_trackpoints_short_row :
  forall (good : list (list T)) (bad : list T) (rest : list (list T))
         (show : bool) (calls : list call),
    Forall (fun point => 6 <= List.length point) good ->
    List.length bad < 6 ->
    exists made : list call,
      plot_trackpoints (good ++ bad :: rest) show calls
      = (calls ++ flat_map markers good ++ made, None)
      /\ List.length made = Nat.div2 (List.length bad)
      /\ existsb (is_show (T := T)) made = false.
Proof.
  intros good bad rest show calls F L.
  unfold plot_trackpoints, bind. rewrite for_each_app by exact F.
  destruct bad as [|cx [|cy [|ix [|iy [|ox [|oy more]]]]]]; cbn in L; try lia;
    cbn; unfold bind, getitem, plt_scatter; cbn;
    first
      [ exists []; split; [rewrite !app_nil_r; reflexivity | split; reflexivity]
      | eexists [_]; split; [rewrite <- !app_assoc; reflexivity | split; reflexivity]
      | eexists [_; _]; split; [rewrite <- !app_assoc; reflexivity | split; reflexivity] ].
Qed.

End Plot.

(** X4 for two rows of six numbers. *)
Lemma plot_trackpoints_two_rows :
  Forall (fun point : list nat => 6 <= List.length point)
         [[0; 0; 0; 1; 0; 2]; [10; 0; 10; 1; 10; 2]]
  /\ plot_trackpoints [[0; 0; 0; 1; 0; 2]; [10; 0; 10; 1; 10; 2]] true []
     = ([] ++ flat_map markers [[0; 0; 0; 1; 0; 2]; [10; 0; 10; 1; 10; 2]] ++ [Show],
        Some tt)
  /\ List.length (flat_map (markers (T := nat)) [[0; 0; 0; 1; 0; 2]; [10; 0; 10; 1; 10; 2]])
     = 3 * 2.
Proof.
  assert (F : Forall (fun point : list nat => 6 <= List.length point)
                     [[0; 0; 0; 1; 0; 2]; [10; 0; 10; 1; 10; 2]])
    by (repeat constructor).
  split; [exact F|].
  exact (plot_trackpoints_three_markers_per_row true [] F).
Defined.

(** X5 for a row of three numbers after a row of six. *)
Lemma plot_trackpoints_row_of_three :
  Forall (fun point : list nat => 6 <= List.length point) [[0; 0; 0; 1; 0; 2]]
  /\ List.length [7; 8; 9] < 6
  /\ exists made : list call,
      plot_trackpoints ([[0; 0; 0; 1; 0; 2]] ++ [7; 8; 9] :: []) true []
      = ([] ++ flat_map markers [[0; 0; 0; 1; 0; 2]] ++ made, None)
      /\ List.length made = Nat.div2 (List.length [7; 8; 9])
      /\ existsb (is_show (T := nat)) made = false.
Proof.
  assert (F : Forall (fun point : list nat => 6 <= List.length point)
                     [[0; 0; 0; 1; 0; 2]])
    by (repeat constructor).
  assert (L : List.length [7; 8; 9] < 6) by (cbn; lia).
  split; [exact F|]. split; [exact L|].
  exact (@plot_trackpoints_short_row nat [[0; 0; 0; 1; 0; 2]] [7; 8; 9] [] true [] F L).
Defined.

End TrackPlotterFacts.

(** ** More on GeometryUtils *)

Module GeometryMore.

Import Exact Geometry GeometryFacts.
Open Scope R_scope.

(** X14: the crossing point does not depend on the order of the two
    points that give a line, nor on the order of the two lines. *)
Theorem crossing_point_order :
  forall x1 y1 x2 y2 x3 y3 x4 y4 : R,
    GeometryUtils.crossing_point_for_two_lines
      (point x2 y2) (point x1 y1) (point x3 y3) (point x4 y4)
    = GeometryUtils.crossing_point_for_two_lines
        (point x1 y1) (point x2 y2) (point x3 y3) (point x4 y4)
    /\ GeometryUtils.crossing_point_for_two_lines
         (point x1 y1) (point x2 y2) (point x4 y4) (point x3 y3)
       = GeometryUtils.crossing_point_for_two_lines
           (point x1 y1) (point x2 y2) (point x3 y3) (point x4 y4)
    /\ GeometryUtils.crossing_point_for_two_lines
         (point x3 y3) (point x4 y4) (point x1 y1) (point x2 y2)
       = GeometryUtils.crossing_point_for_two_lines
           (point x1 y1) (point x2 y2) (point x3 y3) (point x4 y4).
Proof.
  intros x1 y1 x2 y2 x3 y3 x4 y4.
  assert (Z1 : meet_z x2 y2 x1 y1 x3 y3 x4 y4 = - meet_z x1 y1 x2 y2 x3 y3 x4 y4)
    by (unfold meet_z; cbn; ring).
  assert (Z2 : meet_z x1 y1 x2 y2 x4 y4 x3 y3 = - meet_z x1 y1 x2 y2 x3 y3 x4 y4)
    by (unfold meet_z; cbn; ring).
  assert (Z3 : meet_z x3 y3 x4 y4 x1 y1 x2 y2 = - meet_z x1 y1 x2 y2 x3 y3 x4 y4)
    by (unfold meet_z; cbn; ring).
  destruct (Req_dec_T (meet_z x1 y1 x2 y2 x3 y3 x4 y4) 0) as [Z|NZ].
  - rewrite !crossing_point_parallel by lra. repeat split.
  - rewrite !crossing_point_meeting by lra.
    rewrite Z1, Z2, Z3.
    set (z := meet_z x1 y1 x2 y2 x3 y3 x4 y4) in *.
    replace (meet_x x2 y2 x1 y1 x3 y3 x4 y4) with (- meet_x x1 y1 x2 y2 x3 y3 x4 y4)
      by (unfold meet_x; cbn; ring).
    replace (meet_y x2 y2 x1 y1 x3 y3 x4 y4) with (- meet_y x1 y1 x2 y2 x3 y3 x4 y4)
      by (unfold meet_y; cbn; ring).
    replace (meet_x x1 y1 x2 y2 x4 y4 x3 y3) with (- meet_x x1 y1 x2 y2 x3 y3 x4 y4)
      by (unfold meet_x; cbn; ring).
    replace (meet_y x1 y1 x2 y2 x4 y4 x3 y3) with (- meet_y x1 y1 x2 y2 x3 y3 x4 y4)
      by (unfold meet_y; cbn; ring).
    replace (meet_x x3 y3 x4 y4 x1 y1 x2 y2) with (- meet_x x1 y1 x2 y2 x3 y3 x4 y4)
      by (unfold meet_x; cbn; ring).
    replace (meet_y x3 y3 x4 y4 x1 y1 x2 y2) with (- meet_y x1 y1 x2 y2 x3 y3 x4 y4)
      by (unfold meet_y; cbn; ring).
    replace (- meet_x x1 y1 x2 y2 x3 y3 x4 y4 / - z)
      with (meet_x x1 y1 x2 y2 x3 y3 x4 y4 / z) by (field; exact NZ).
    replace (- meet_y x1 y1 x2 y2 x3 y3 x4 y4 / - z)
      with (meet_y x1 y1 x2 y2 x3 y3 x4 y4 / z) by (field; exact NZ).
    repeat split.
Qed.

(** X17: when the two points given for the line are the same point,
    [get_a_point_on_a_line_closest_to_point] raises nothing and does
    not return the sentinel: the direction has length 0, its normal is
    [(nan, nan)], and the result is [(nan, nan)]. *)
Theorem closest_point_to_a_degenerate_line :
  forall x y px py : R,
    GeometryUtils.get_a_point_on_a_line_closest_to_point
      (point x y) (point x y) (point px py) = Return (NaN, NaN).
Proof.
  intros x y px py.
  unfold GeometryUtils.get_a_point_on_a_line_closest_to_point.
  rewrite vector_point.
  unfold GeometryUtils.perpendicular_normalized_vector_to_straight_line.
  rewrite perpendicular_vector_point.
  replace (- (y - y)) with 0 by ring. replace (x - x) with 0 by ring.
  rewrite normalize_vector_zero. reflexivity.
Qed.

End GeometryMore.

(** ** Loading, building and plotting together *)

Module PipelineFacts.

Import TrackPlotter.

Section Pipeline.

Context {T : Type} `{np.Scalar T}.

Variable np_load : string -> option (np.ndarray (T := T)).

(** X22: for a track name that does not end in [.npy], when the file
    [base_path/name.npy] holds the array of two or more waypoint
    records [w], [load_track(name)] prints [Loaded n waypoints] with
    [n] the number of records and returns the Track called [name]
    whose [waypoints] are that array and whose three lines are the
    records' centre, inner and outer points times 100. *)
Theorem load_track_of_a_waypoint_file :
  forall (self : TrackIO.TrackIO) (track_name : string)
         (w0 w1 : waypoint T) (ws : list (waypoint T)),
    let w := w0 :: w1 :: ws in
    str.endswith track_name ".npy" = false ->
    np_load (TrackIO.base_path self ++ "/" ++ track_name ++ ".npy")%string
    = Some (waypoint_array w) ->
    exists t : Track T,
      TrackIO.load_track np_load self track_name
      = Some (("Loaded " ++ str.of_nat (List.length w) ++ " waypoints")%string, Return t)
      /\ name t = track_name
      /\ waypoints t = waypoint_array w
      /\ center_line t = map (fun r => times_100 (center_point r)) w
      /\ inner_border t = map (fun r => times_100 (inner_point r)) w
      /\ outer_border t = map (fun r => times_100 (outer_point r)) w.
Proof.
  intros self track_name w0 w1 ws w E F.
  eexists. split.
  - unfold TrackIO.load_track. rewrite E.
    unfold TrackIO.get_track_waypoints. rewrite E, F.
    subst w. rewrite Track_init_waypoints.
    unfold waypoint_array. rewrite length_map. reflexivity.
  - cbn [name waypoints center_line inner_border outer_border]. repeat split.
Qed.

Lemma waypoint_rows_have_six (w : list (waypoint T)) :
  Forall (fun point => 6 <= List.length point) (waypoint_array w).
Proof.
  unfold waypoint_array. apply Forall_map, Forall_forall. intros r _. cbn. lia.
Qed.

(** X23: plotting the array of [n] waypoint records raises nothing:
    it makes [3 * n] [scatter] calls, for each record in order its
    centre in blue, its inner point in black and its outer point in
    cyan, and then calls [show] exactly when [show] is true. *)
Theorem plot_waypoint_array :
  forall (w : list (waypoint T)) (show : bool),
    plot_trackpoints (waypoint_array w) show []
    = (flat_map (fun r => [Scatter (center_x r) (center_y r) "blue";
                           Scatter (inner_x r) (inner_y r) "black";
                           Scatter (outer_x r) (outer_y r) "cyan"]) w
       ++ (if show then [Show] else []),
       Some tt)
    /\ List.length
         (flat_map (fun r => [Scatter (center_x r) (center_y r) "blue";
                              Scatter (inner_x r) (inner_y r) "black";
                              Scatter (outer_x r) (outer_y r) "cyan"]) w)
       = 3 * List.length w.
Proof.
  intros w show.
  assert (M : flat_map markers (waypoint_array w)
              = flat_map (fun r => [Scatter (center_x r) (center_y r) "blue";
                                    Scatter (inner_x r) (inner_y r) "black";
                                    Scatter (outer_x r) (outer_y r) "cyan"]) w).
  { unfold waypoint_array. induction w as [|r w IH]; [reflexivity|].
    cbn [map flat_map]. rewrite IH. reflexivity. }
  split.
  - unfold plot_trackpoints, bind.
    rewrite TrackPlotterFacts.for_each_rows_of_six by apply waypoint_rows_have_six.
    rewrite M. destruct show; unfold plt_show, ret; cbn [app].
    + reflexivity.
    + rewrite app_nil_r. reflexivity.
  - rewrite <- M, TrackPlotterFacts.markers_count by apply waypoint_rows_have_six.
    unfold waypoint_array. rewrite length_map. reflexivity.
Qed.

End Pipeline.

(** X22 for a folder with one file of two waypoints. *)
Lemma load_track_of_two_waypoints :
  exists t : Track float,
    TrackIO.load_track
      (fun path : string =>
         if String.eqb path "./tracks/straight.npy"
         then Some (waypoint_array
                      [ {| center_x := 0; center_y := 0; inner_x := 0; inner_y := 1;
                           outer_x := 0; outer_y := -1 |};
                        {| center_x := 10; center_y := 0; inner_x := 10; inner_y := 1;
                           outer_x := 10; outer_y := -1 |} ]%float)
         else None)
      (TrackIO.init TrackIO.default_base_path) "straight"
    = Some (("Loaded " ++ str.of_nat 2 ++ " waypoints")%string, Return t)
    /\ name t = "straight"%string.
Proof.
  destruct (@load_track_of_a_waypoint_file float _
              (fun path : string =>
                 if String.eqb path "./tracks/straight.npy"
                 then Some (waypoint_array
                      [ {| center_x := 0; center_y := 0; inner_x := 0; inner_y := 1;
                           outer_x := 0; outer_y := -1 |};
                        {| center_x := 10; center_y := 0; inner_x := 10; inner_y := 1;
                           outer_x := 10; outer_y := -1 |} ]%float)
                 else None)
              (TrackIO.init TrackIO.default_base_path) "straight"
              {| center_x := 0; center_y := 0; inner_x := 0; inner_y := 1;
                 outer_x := 0; outer_y := -1 |}%float
              {| center_x := 10; center_y := 0; inner_x := 10; inner_y := 1;
                 outer_x := 10; outer_y := -1 |}%float
              []
              eq_refl eq_refl) as [t [L [N _]]].
  exists t. split; [exact L | exact N].
Defined.

End PipelineFacts.
